(** * Learn: the EVM calculator (eva.py) and the hospital dashboard
      (hospital_app.py)

    A shallow embedding of the computational parts of the two Streamlit
    pages, and the properties of them that the specification states.

    Conventions of the embedding.
    - A Python [float] is an exact rational ([Q]); the tests [x != 0],
      [x > 0], ... are the decidable comparisons of [Q].  Rounding, the
      infinities and NaN are outside the model.
    - A Python exception is a value of [exn]; code that may raise returns
      [result A], and the order of evaluation of the source is kept.
    - A Python [str] is a [string] whose characters are read as the code
      points 0..255.
    - A calendar date is its day number ([Z]), so that
      [(d2 - d1).days] is a subtraction. *)

From Stdlib Require Import ZArith QArith Qabs Qfield Lqa List String Ascii Bool Lia.
From Stdlib Require Import Permutation Sorted.
Import ListNotations.

Local Open Scope string_scope.
Local Open Scope Z_scope.
Local Open Scope Q_scope.

(** ** Python: exceptions and values *)

Module Py.

Inductive exn : Type :=
| ZeroDivisionError
| KeyError (key : string)
| ValueError
| TypeError
| DuckDBError.   (* duckdb.Error: a constraint or a conversion failed *)

(** Why an evaluation stops before it returns: an exception, or a float
    that is not a number of the model ([inf], [nan]). *)
Inductive halt : Type :=
| Raised (e : exn)
| NonFinite.

Definition result (A : Type) : Type := (halt + A)%type.

Definition ret {A} (a : A) : result A := inr a.
Definition raise {A} (e : exn) : result A := inl (Raised e).
Definition bind {A B} (c : result A) (k : A -> result B) : result B :=
  match c with
  | inl e => inl e
  | inr a => k a
  end.

Definition Qlt_bool (x y : Q) : bool := negb (Qle_bool y x).
Definition Qne_bool (x y : Q) : bool := negb (Qeq_bool x y).

(** [a / b] on floats. *)
Definition truediv (a b : Q) : result Q :=
  if Qeq_bool b 0 then raise ZeroDivisionError else ret (a / b).

(** A [dict] with [str] keys, in insertion order. *)
Definition dict (V : Type) : Type := list (string * V).

Fixpoint setitem {V} (d : dict V) (k : string) (v : V) : dict V :=
  match d with
  | [] => [(k, v)]
  | (k', v') :: d' =>
      if String.eqb k' k then (k', v) :: d' else (k', v') :: setitem d' k v
  end.

Fixpoint getitem {V} (d : dict V) (k : string) : result V :=
  match d with
  | [] => raise (KeyError k)
  | (k', v') :: d' => if String.eqb k' k then ret v' else getitem d' k
  end.

Definition keys {V} (d : dict V) : list string := map fst d.

End Py.

Import Py.

Declare Scope py_scope.
Delimit Scope py_scope with py.
Notation "x <- c1 ;; c2" := (bind c1 (fun x => c2))
  (at level 61, c1 at next level, right associativity) : py_scope.
Local Open Scope py_scope.

(** ** eva.py *)

Module Eva.

(** [calculate_evm_metrics(bac, pv, ev, ac)]: the dictionary is filled key
    after key, and later entries read earlier ones back. *)
Definition calculate_evm_metrics (bac pv ev ac : Q) : result (dict Q) :=
  let metrics : dict Q := [] in
  let metrics := setitem metrics "SV" (ev - pv) in
  let metrics := setitem metrics "CV" (ev - ac) in
  spi <- (if Qne_bool pv 0 then truediv ev pv else ret 0) ;;
  let metrics := setitem metrics "SPI" spi in
  cpi <- (if Qne_bool ac 0 then truediv ev ac else ret 0) ;;
  let metrics := setitem metrics "CPI" cpi in
  c <- getitem metrics "CPI" ;;
  eac_typical <- (if Qne_bool c 0
                  then (c' <- getitem metrics "CPI" ;; truediv bac c')
                  else ret 0) ;;
  let metrics := setitem metrics "EAC_Typical" eac_typical in
  let metrics := setitem metrics "EAC_Atypical" (ac + (bac - ev)) in
  e <- getitem metrics "EAC_Typical" ;;
  let metrics := setitem metrics "ETC_Typical" (e - ac) in
  e <- getitem metrics "EAC_Atypical" ;;
  let metrics := setitem metrics "ETC_Atypical" (e - ac) in
  e <- getitem metrics "EAC_Typical" ;;
  let metrics := setitem metrics "VAC" (bac - e) in
  tcpi_bac <- (if Qne_bool (bac - ac) 0
               then truediv (bac - ev) (bac - ac)
               else ret 0) ;;
  let metrics := setitem metrics "TCPI_BAC" tcpi_bac in
  e <- getitem metrics "EAC_Typical" ;;
  tcpi_eac <- (if Qne_bool (e - ac) 0
               then (e' <- getitem metrics "EAC_Typical" ;;
                     truediv (bac - ev) (e' - ac))
               else ret 0) ;;
  let metrics := setitem metrics "TCPI_EAC" tcpi_eac in
  ret metrics.

(** [metrics[k]] is a number equal to [v]. *)
Definition has_metric (metrics : dict Q) (k : string) (v : Q) : Prop :=
  exists v', getitem metrics k = inr v' /\ v' == v.

(** [x] is [y] to within [tol]. *)
Definition approx (x y tol : Q) : Prop := Qabs (x - y) <= tol.

(** *** The S-curve *)

(** The cumulative fraction at the normalised time [t]. *)
Definition smoothstep (t : Q) : Q := 3 * t ^ 2 - 2 * t ^ 3.

(** A [go.Scatter] trace and a [go.Figure]: the data that the page plots
    (colours, hover templates and the layout are left out). *)
Record Scatter : Type := mkScatter {
  sc_x : list Q;
  sc_y : list Q;
  sc_mode : string;
  sc_name : string
}.

Record Figure : Type := mkFigure {
  traces : list Scatter;
  vlines : list Z;
  hlines : list Q
}.

(** [go.Figure()] *)
Definition go_Figure : Figure := mkFigure [] [] [].

Definition add_trace (fig : Figure) (t : Scatter) : Figure :=
  mkFigure (traces fig ++ [t]) (vlines fig) (hlines fig).
Definition add_vline (fig : Figure) (x : Z) : Figure :=
  mkFigure (traces fig) (vlines fig ++ [x]) (hlines fig).
Definition add_hline (fig : Figure) (y : Q) : Figure :=
  mkFigure (traces fig) (vlines fig) (hlines fig ++ [y]).

(** [np.linspace(start, stop, num)] with the default [endpoint=True]:
    [start + i * step] for [step = (stop - start) / (num - 1)], the last
    sample being set to [stop]. *)
Definition linspace (start stop : Q) (num : nat) : list Q :=
  let step := (stop - start) / inject_Z (Z.of_nat (num - 1)) in
  let y := map (fun i => inject_Z (Z.of_nat i) * step + start) (seq 0 num) in
  match num with
  | S (S n) => firstn (S n) y ++ [stop]
  | _ => y
  end.

(** The three arrays of [generate_s_curve_plot]: [x_days], [y_percent]
    and [pv_curve]. *)
Definition x_days (total_duration : Z) : list Q :=
  linspace 0 (inject_Z total_duration) 100.

Definition y_percent (total_duration : Z) : list Q :=
  let t := map (fun x => x / inject_Z total_duration) (x_days total_duration) in
  map (fun t => 3 * t ^ 2 - 2 * t ^ 3) t.

Definition pv_curve (bac : Q) (total_duration : Z) : list Q :=
  map (fun y => bac * y) (y_percent total_duration).

Definition generate_s_curve_plot
    (bac : Q) (start_date finish_date data_date : Z) (ev ac : Q) : Figure :=
  let total_duration := (finish_date - start_date)%Z in
  if (total_duration <=? 0)%Z then go_Figure
  else
    let elapsed_days := (data_date - start_date)%Z in
    let fig := go_Figure in
    let fig := add_trace fig
      (mkScatter (x_days total_duration) (pv_curve bac total_duration)
                 "lines" "Planned Value (PV)") in
    let fig := add_vline fig elapsed_days in
    let fig := add_trace fig
      (mkScatter [inject_Z elapsed_days] [ev] "markers+text" "Earned Value (EV)") in
    let fig := add_trace fig
      (mkScatter [inject_Z elapsed_days] [ac] "markers+text" "Actual Cost (AC)") in
    let fig := add_hline fig bac in
    fig.

(** *** The page *)

(** What the page body shows below the sidebar: [st.error], [st.warning],
    or the dashboard built from the metrics and the chart. *)
Inductive Page : Type :=
| StError (msg : string)
| StWarning (msg : string)
| Dashboard (metrics : dict Q) (fig : Figure).

Definition data_date_warning : string :=
  "Warning: Data Date is outside the planned project duration.".

(** The validation block and the [else] branch that hangs from it. *)
Definition page (bac : Q) (start_date finish_date data_date : Z)
    (ac ev pv : Q) : result Page :=
  if (start_date >=? finish_date)%Z then
    ret (StError "Error: Plan Finish Date must be after Plan Start Date.")
  else if (data_date <? start_date)%Z || (data_date >? finish_date)%Z then
    ret (StWarning data_date_warning)
  else
    metrics <- calculate_evm_metrics bac pv ev ac ;;
    let fig := generate_s_curve_plot bac start_date finish_date data_date ev ac in
    ret (Dashboard metrics fig).

(** *** The texts of the dashboard *)

(** The two words of the chart interpretation:
    ['Over Budget' if ac > ev else 'Under Budget'] and
    ['Behind Schedule' if ev < pv else 'Ahead of Schedule']. *)
Definition budget_word (ac ev : Q) : string :=
  if Qlt_bool ev ac then "Over Budget" else "Under Budget".

Definition schedule_word (ev pv : Q) : string :=
  if Qlt_bool ev pv then "Behind Schedule" else "Ahead of Schedule".

(** [st.success], [st.warning] and [st.error]. *)
Inductive Alert : Type :=
| Success
| Warning
| Error.

(** [metrics[k] >= 1] and [metrics[k] < 1] *)
Definition index_ge_1 (metrics : dict Q) (k : string) : result bool :=
  v <- getitem metrics k ;; ret (Qle_bool 1 v).

Definition index_lt_1 (metrics : dict Q) (k : string) : result bool :=
  v <- getitem metrics k ;; ret (Qlt_bool v 1).

(** [a and b]: [b] is evaluated only when [a] holds. *)
Definition and_then (a b : result bool) : result bool :=
  x <- a ;; if x then b else ret false.

(** The status summary under the forecast table: the alert and its text
    (the pictogram that opens each text is left out). *)
Definition status_summary (metrics : dict Q) : result (Alert * string) :=
  c <- and_then (index_ge_1 metrics "SPI") (index_ge_1 metrics "CPI") ;;
  if c then ret (Success, "Project is Ahead of Schedule and Under Budget.")
  else
    c <- and_then (index_lt_1 metrics "SPI") (index_ge_1 metrics "CPI") ;;
    if c then ret (Warning, "Project is Behind Schedule but Under Budget.")
    else
      c <- and_then (index_ge_1 metrics "SPI") (index_lt_1 metrics "CPI") ;;
      if c then ret (Warning, "Project is Ahead of Schedule but Over Budget.")
      else ret (Error, "Project is Behind Schedule and Over Budget.").

End Eva.

(** ** hospital_app.py *)

Module Hospital.

(** *** Strings *)

(** The characters that [str.strip()] removes, among the code points
    0..255: tab, LF, VT, FF, CR, the separators 28..31, space, NEL (133)
    and the no-break space (160). *)
Definition is_space (c : ascii) : bool :=
  let n := nat_of_ascii c in
  ((9 <=? n) && (n <=? 13) || (28 <=? n) && (n <=? 32)
   || (n =? 133) || (n =? 160))%nat.

Fixpoint lstrip (s : string) : string :=
  match s with
  | EmptyString => EmptyString
  | String c s' => if is_space c then lstrip s' else s
  end.

Fixpoint rstrip (s : string) : string :=
  match s with
  | EmptyString => EmptyString
  | String c s' =>
      match rstrip s' with
      | EmptyString => if is_space c then EmptyString else String c EmptyString
      | r => String c r
      end
  end.

(** [s.strip()] *)
Definition strip (s : string) : string := rstrip (lstrip s).

(** [sub in s] *)
Fixpoint contains (sub s : string) : bool :=
  String.prefix sub s ||
  match s with
  | EmptyString => false
  | String _ s' => contains sub s'
  end.

(** *** Numbers written as text *)

Definition is_digit (c : ascii) : bool :=
  let n := nat_of_ascii c in ((48 <=? n) && (n <=? 57))%nat.

Definition digit_val (c : ascii) : Z := Z.of_nat (nat_of_ascii c - 48).

(** [(["_"] digit)*]: the digits read and the text left. *)
Fixpoint digits_more (s : list ascii) : list Z * list ascii :=
  match s with
  | [] => ([], [])
  | c :: s' =>
      if is_digit c then
        let '(ds, r) := digits_more s' in (digit_val c :: ds, r)
      else if Ascii.eqb c "_" then
        match s' with
        | c2 :: s'' =>
            if is_digit c2 then
              let '(ds, r) := digits_more s'' in (digit_val c2 :: ds, r)
            else ([], s)
        | [] => ([], s)
        end
      else ([], s)
  end.

(** [digitpart ::= digit (["_"] digit)*] *)
Definition digitpart (s : list ascii) : option (list Z * list ascii) :=
  match s with
  | c :: s' =>
      if is_digit c then
        let '(ds, r) := digits_more s' in Some (digit_val c :: ds, r)
      else None
  | [] => None
  end.

Definition decimal (ds : list Z) : Z :=
  fold_left (fun acc d => 10 * acc + d)%Z ds 0%Z.

(** The value of the digits [ip] "." [fp]. *)
Definition mantissa (ip fp : list Z) : Q :=
  let scale := (10 ^ Z.of_nat (List.length fp))%Z in
  inject_Z (decimal ip * scale + decimal fp) / inject_Z scale.

(** [number ::= [digitpart] "." digitpart | digitpart ["."]] *)
Definition number (s : list ascii) : option (Q * list ascii) :=
  match digitpart s with
  | Some (ip, r) =>
      match r with
      | "."%char :: r' =>
          match digitpart r' with
          | Some (fp, r'') => Some (mantissa ip fp, r'')
          | None => Some (mantissa ip [], r')
          end
      | _ => Some (mantissa ip [], r)
      end
  | None =>
      match s with
      | "."%char :: r' =>
          match digitpart r' with
          | Some (fp, r'') => Some (mantissa [] fp, r'')
          | None => None
          end
      | _ => None
      end
  end.

(** An optional sign: [1] or [-1], and the text after it. *)
Definition sign (s : list ascii) : Z * list ascii :=
  match s with
  | "+"%char :: r => (1%Z, r)
  | "-"%char :: r => ((-1)%Z, r)
  | _ => (1%Z, s)
  end.

(** [exponent ::= ("e" | "E") [sign] digitpart], up to the end of the
    text; no exponent is the exponent 0. *)
Definition exponent (s : list ascii) : option Z :=
  match s with
  | [] => Some 0%Z
  | c :: r =>
      if Ascii.eqb c "e" || Ascii.eqb c "E" then
        let '(sg, r') := sign r in
        match digitpart r' with
        | Some (ds, []) => Some (sg * decimal ds)%Z
        | _ => None
        end
      else None
  end.

Definition lower (c : ascii) : ascii :=
  let n := nat_of_ascii c in
  if ((65 <=? n) && (n <=? 90))%nat then ascii_of_nat (n + 32) else c.

(** The spellings of the floats that are not numbers of the model. *)
Definition non_finite_word (s : list ascii) : bool :=
  let w := string_of_list_ascii (map lower s) in
  String.eqb w "inf" || String.eqb w "infinity" || String.eqb w "nan".

(** What [float(s)] does with a text. *)
Inductive float_text : Type :=
| FloatValue (q : Q)
| FloatNonFinite
| FloatInvalid.

Definition parse_float (s : string) : float_text :=
  let '(sg, r) := sign (list_ascii_of_string (strip s)) in
  if non_finite_word r then FloatNonFinite
  else
    match number r with
    | Some (m, r') =>
        match exponent r' with
        | Some e => FloatValue (inject_Z sg * m * (10 ^ e))
        | None => FloatInvalid
        end
    | None => FloatInvalid
    end.

(** What [int(s)] does with a text: an optional sign and a [digitpart]. *)
Definition parse_int (s : string) : option Z :=
  let '(sg, r) := sign (list_ascii_of_string (strip s)) in
  match digitpart r with
  | Some (ds, []) => Some (sg * decimal ds)%Z
  | _ => None
  end.

(** *** Cells *)

(** The value of a cell of a [DataFrame]: [None], a number ([int] or
    [float]) or a text. *)
Inductive pyval : Type :=
| PyNone
| PyNum (q : Q)
| PyStr (s : string).

(** [bool(v)] *)
Definition truthy (v : pyval) : bool :=
  match v with
  | PyNone => false
  | PyNum q => Qne_bool q 0
  | PyStr s => negb (String.eqb s "")
  end.

(** [a or b] *)
Definition py_or (a b : pyval) : pyval := if truthy a then a else b.

(** [float(v)] *)
Definition py_float (v : pyval) : result Q :=
  match v with
  | PyNone => raise TypeError
  | PyNum q => ret q
  | PyStr s =>
      match parse_float s with
      | FloatValue q => ret q
      | FloatNonFinite => inl NonFinite
      | FloatInvalid => raise ValueError
      end
  end.

(** [int(v)]: a number is truncated towards zero. *)
Definition py_int (v : pyval) : result Z :=
  match v with
  | PyNone => raise TypeError
  | PyNum q => ret (Z.quot (Qnum q) (Zpos (Qden q)))
  | PyStr s =>
      match parse_int s with
      | Some n => ret n
      | None => raise ValueError
      end
  end.

(** *** Data frames *)

(** A [DataFrame]: the column labels and the rows, each row holding one
    cell per column.  Column labels are distinct. *)
Record DataFrame : Type := mkDF {
  columns : list string;
  rows : list (list pyval)
}.

(** [df.empty]: an axis of length 0. *)
Definition df_empty (df : DataFrame) : bool :=
  match columns df, rows df with
  | [], _ => true
  | _, [] => true
  | _, _ => false
  end.

(** [key in df.columns] *)
Definition has_column (df : DataFrame) (key : string) : bool :=
  existsb (String.eqb key) (columns df).

(** [row.get(key, default)] for a row of a frame with the labels [cols]. *)
Fixpoint series_get (cols : list string) (row : list pyval)
    (key : string) (default : pyval) : pyval :=
  match cols, row with
  | c :: cols', v :: row' =>
      if String.eqb c key then v else series_get cols' row' key default
  | _, _ => default
  end.

(** The row of [analysis]: Department, Before, After, Variance. *)
Record VarianceRow : Type := mkRow {
  Department : string;
  Before : Q;
  After : Q;
  Variance : Q
}.

Section Host.

(** [str(x)] of a number is Python's shortest-repr algorithm, and the
    text that DuckDB stores when a number is bound to a VARCHAR column is
    DuckDB's cast: both are taken as they are. *)
Variable str_of_num : Q -> string.
Variable varchar_of_num : Q -> string.

(** [str(v)] *)
Definition py_str (v : pyval) : string :=
  match v with
  | PyNone => "None"
  | PyNum q => str_of_num q
  | PyStr s => s
  end.

(** [after_df[after_df[col].astype(str).str.strip() == dept_name]]:
    [KeyError] when the frame has no column [col]. *)
Definition select_department (after_df : DataFrame) (col dept_name : string)
    : result (list (list pyval)) :=
  if has_column after_df col then
    ret (filter
           (fun r => String.eqb
                       (strip (py_str (series_get (columns after_df) r col PyNone)))
                       dept_name)
           (rows after_df))
  else raise (KeyError col).

(** The loop of [analyze_data] over the rows of [before_df] that are
    left, [dept_data] being the list built so far. *)
Fixpoint analyze_rows (before_cols : list string) (after_df : DataFrame)
    (dept_col pct_col after_dept_col after_pct_col : string)
    (todo : list (list pyval)) (dept_data : list VarianceRow)
    : result (list VarianceRow) :=
  match todo with
  | [] => ret dept_data
  | before_row :: todo' =>
      let continue dept_data :=
        analyze_rows before_cols after_df dept_col pct_col
                     after_dept_col after_pct_col todo' dept_data in
      let dept_name :=
        strip (py_str (series_get before_cols before_row dept_col (PyStr ""))) in
      if String.eqb dept_name "" || String.eqb dept_name "-"
         || contains "Sum" dept_name
      then continue dept_data
      else
        after_row <- select_department after_df after_dept_col dept_name ;;
        match after_row with
        | [] => continue dept_data
        | first :: _ =>
            before_pct <-
              py_float (py_or (series_get before_cols before_row pct_col (PyNum 0))
                              (PyNum 0)) ;;
            after_pct <-
              py_float (py_or (series_get (columns after_df) first after_pct_col
                                          (PyNum 0))
                              (PyNum 0)) ;;
            let variance := after_pct - before_pct in
            continue (dept_data ++ [mkRow dept_name before_pct after_pct variance])%list
        end
  end.

(** [analyze_data(before_df, after_df)]: the rows of the frame returned,
    whose columns are Department, Before, After, Variance in both exits. *)
Definition analyze_data (before_df after_df : DataFrame)
    : result (list VarianceRow) :=
  if df_empty before_df || df_empty after_df then ret []
  else
    let dept_col :=
      if has_column before_df "department" then "department" else "Department" in
    let pct_col :=
      if has_column before_df "fully_met_pct" then "fully_met_pct"
      else "Fully Met %" in
    let after_dept_col :=
      if has_column after_df "department" then "department" else "Department" in
    let after_pct_col :=
      if has_column after_df "fully_met_pct" then "fully_met_pct"
      else "Fully Met %" in
    analyze_rows (columns before_df) after_df dept_col pct_col
                 after_dept_col after_pct_col (rows before_df) [].

(** *** The store *)

(** A row of the table [case_data], whose primary key is
    [(case_id, department, year)].  The table is the list of its rows in
    the order of their insertion, which is the order in which a SELECT
    without ORDER BY lists them. *)
Record CaseData : Type := mkCaseData {
  case_id : string;
  department : string;
  fully_met : Z;
  fully_met_pct : Q;
  partially_met : Z;
  partially_met_pct : Q;
  not_met : Z;
  not_met_pct : Q;
  not_applicable : Z;
  year : Z
}.

Definition Table : Type := list CaseData.

(** A value bound to an INTEGER column. *)
Definition to_integer (n : Z) : result Z :=
  if ((- 2 ^ 31 <=? n) && (n <=? 2 ^ 31 - 1))%Z then ret n
  else raise DuckDBError.

(** A value bound to the VARCHAR column [department], which is part of
    the primary key and so NOT NULL. *)
Definition to_key_varchar (v : pyval) : result string :=
  match v with
  | PyNone => raise DuckDBError
  | PyNum q => ret (varchar_of_num q)
  | PyStr s => ret s
  end.

(** [DELETE FROM case_data WHERE case_id = ? AND year = ?] *)
Definition delete_case_year (cid : string) (yr : Z) (t : Table) : Table :=
  filter (fun r => negb (String.eqb (case_id r) cid && (year r =? yr)%Z)) t.

Definition same_key (r r' : CaseData) : bool :=
  String.eqb (case_id r) (case_id r')
  && String.eqb (department r) (department r')
  && (year r =? year r')%Z.

(** The ten parameters of the INSERT, computed by Python from left to
    right and then converted to the types of the columns. *)
Definition insert_params (cid : string) (cols : list string)
    (row : list pyval) (yr : Z) : result CaseData :=
  let get k1 k2 d := series_get cols row k1 (series_get cols row k2 d) in
  let dept := get "Department" "department" (PyStr "") in
  fm <- py_int (get "Fully Met" "fully_met" (PyNum 0)) ;;
  fmp <- py_float (get "Fully Met %" "fully_met_pct" (PyNum 0)) ;;
  pm <- py_int (get "Partially Met" "partially_met" (PyNum 0)) ;;
  pmp <- py_float (get "Partially Met %" "partially_met_pct" (PyNum 0)) ;;
  nm <- py_int (get "Not Met" "not_met" (PyNum 0)) ;;
  nmp <- py_float (get "Not Met %" "not_met_pct" (PyNum 0)) ;;
  na <- py_int (get "Not Applicable" "not_applicable" (PyNum 0)) ;;
  dept <- to_key_varchar dept ;;
  fm <- to_integer fm ;;
  pm <- to_integer pm ;;
  nm <- to_integer nm ;;
  na <- to_integer na ;;
  yr <- to_integer yr ;;
  ret (mkCaseData cid dept fm fmp pm pmp nm nmp na yr).

(** [INSERT INTO case_data ... VALUES (...)]: refused when the key is
    already in the table. *)
Definition insert_row (r : CaseData) (t : Table) : result Table :=
  if existsb (same_key r) t then raise DuckDBError else ret (t ++ [r])%list.

(** The loop of [save_case_data].  Each statement is committed when it
    is executed: when a row raises, the table keeps what was done before. *)
Fixpoint insert_all (cid : string) (cols : list string)
    (todo : list (list pyval)) (yr : Z) (t : Table) : result unit * Table :=
  match todo with
  | [] => (ret tt, t)
  | row :: todo' =>
      match (r <- insert_params cid cols row yr ;; insert_row r t) with
      | inl e => (inl e, t)
      | inr t' => insert_all cid cols todo' yr t'
      end
  end.

(** [save_case_data(case_id, df, year)] *)
Definition save_case_data (cid : string) (df : DataFrame) (yr : Z) (t : Table)
    : result unit * Table :=
  let t := delete_case_year cid yr t in
  insert_all cid (columns df) (rows df) yr t.

(** The eight columns that [get_case_data] selects. *)
Definition case_data_columns : list string :=
  ["department"; "fully_met"; "fully_met_pct"; "partially_met";
   "partially_met_pct"; "not_met"; "not_met_pct"; "not_applicable"].

Definition selected (r : CaseData) : list pyval :=
  [PyStr (department r);
   PyNum (inject_Z (fully_met r)); PyNum (fully_met_pct r);
   PyNum (inject_Z (partially_met r)); PyNum (partially_met_pct r);
   PyNum (inject_Z (not_met r)); PyNum (not_met_pct r);
   PyNum (inject_Z (not_applicable r))].

(** [get_case_data(case_id, year)] *)
Definition get_case_data (cid : string) (yr : Z) (t : Table) : DataFrame :=
  mkDF case_data_columns
       (map selected
            (filter (fun r => String.eqb (case_id r) cid && (year r =? yr)%Z) t)).

End Host.

(** *** The summary *)

(** [Series.mean()] of a series that is not empty (the mean of an empty
    series is NaN; both callers test for it first). *)
Definition mean (l : list Q) : Q :=
  fold_right Qplus 0 l / inject_Z (Z.of_nat (List.length l)).

(** A stable sort by insertion: [x], which stood before the rows of [l],
    goes in front of the first row that it may precede. *)
Fixpoint insert_by {A} (precedes : A -> A -> bool) (x : A) (l : list A) : list A :=
  match l with
  | [] => [x]
  | y :: l' => if precedes x y then x :: l else y :: insert_by precedes x l'
  end.

Fixpoint sort_by {A} (precedes : A -> A -> bool) (l : list A) : list A :=
  match l with
  | [] => []
  | x :: l' => insert_by precedes x (sort_by precedes l')
  end.

(** [df.nlargest(n, 'Variance')] and [df.nsmallest(n, 'Variance')] with
    the default [keep='first']: the first [n] rows of the frame sorted by
    Variance, downwards or upwards, rows of equal Variance staying in
    the order of the frame. *)
Definition nlargest (n : nat) (df : list VarianceRow) : list VarianceRow :=
  firstn n (sort_by (fun x y => Qle_bool (Variance y) (Variance x)) df).

Definition nsmallest (n : nat) (df : list VarianceRow) : list VarianceRow :=
  firstn n (sort_by (fun x y => Qle_bool (Variance x) (Variance y)) df).

(** The values that the f-string of [generate_summary] interpolates, in
    place of the text (numbers are not formatted here). *)
Record Narrative : Type := mkNarrative {
  total_before : Q;
  total_after : Q;
  total_change : Q;
  overall_word : string;
  improved : list VarianceRow;
  declined : list VarianceRow;
  departments : nat;
  top_improved : list VarianceRow;
  top_declined : list VarianceRow;
  best_depts : list string
}.

Inductive Summary : Type :=
| NoData (text : string)
| Text (n : Narrative).

(** [generate_summary(analysis_df)]; [None] is the Python [None]. *)
Definition generate_summary (analysis_df : option (list VarianceRow)) : Summary :=
  match analysis_df with
  | None | Some [] => NoData "No data available for analysis."
  | Some df =>
      let total_before := mean (map Before df) in
      let total_after := mean (map After df) in
      let total_change := total_after - total_before in
      let improved := filter (fun r => Qlt_bool 0 (Variance r)) df in
      let declined := filter (fun r => Qlt_bool (Variance r) 0) df in
      let top_improved := nlargest 3 improved in
      let top_declined := nsmallest 3 declined in
      let best_depts :=
        map Department (filter (fun r => Qle_bool 90 (After r)) df) in
      Text (mkNarrative total_before total_after total_change
              (if Qle_bool 0 total_change then "improved" else "declined")
              improved declined (List.length df)
              top_improved top_declined best_depts)
  end.

(** The figures of the cards and of the pie chart of the Analysis tab,
    shown when [analysis] is not empty. *)
Record Cards : Type := mkCards {
  card_before : Q;
  card_after : Q;
  card_change : Q;
  improved_count : nat;
  declined_count : nat;
  unchanged_count : nat;
  change_label : string
}.

Definition analysis_cards (analysis : list VarianceRow) : Cards :=
  let total_before := mean (map Before analysis) in
  let total_after := mean (map After analysis) in
  let total_change := total_after - total_before in
  let improved_count :=
    List.length (filter (fun r => Qlt_bool 0 (Variance r)) analysis) in
  let declined_count :=
    List.length (filter (fun r => Qlt_bool (Variance r) 0) analysis) in
  let unchanged_count :=
    List.length (filter (fun r => Qeq_bool (Variance r) 0) analysis) in
  mkCards total_before total_after total_change
          improved_count declined_count unchanged_count
          (if Qle_bool 0 total_change then "Improvement" else "Decline").

(** *** The comparison, in the words of the specification *)

(** A record of a collection: a department name and its percentage. *)
Record DeptRecord : Type := mkDept {
  name : string;
  pct : Q
}.

(** A trimmed name that is empty, is "-", or contains "Sum". *)
Definition skipped (n : string) : bool :=
  String.eqb n "" || String.eqb n "-" || contains "Sum" n.

(** [after] has a record whose trimmed name is [n]. *)
Definition matched (after : list DeptRecord) (n : string) : bool :=
  existsb (fun a => String.eqb (strip (name a)) n) after.

(** compareDepartments: for each before record, in order, trim its name,
    skip it when the trimmed name is skipped, find the after record whose
    trimmed name is the same, skip it when there is none, and report the
    two percentages and their difference. *)
Definition compareDepartments (before after : list DeptRecord)
    : list VarianceRow :=
  flat_map
    (fun b =>
       let n := strip (name b) in
       if skipped n then []
       else
         match find (fun a => String.eqb (strip (name a)) n) after with
         | Some a => [mkRow n (pct b) (pct a) (pct a - pct b)]
         | None => []
         end)
    before.

(** Rows with the same department and equal numbers. *)
Definition row_eq (r r' : VarianceRow) : Prop :=
  Department r = Department r'
  /\ Before r == Before r' /\ After r == After r' /\ Variance r == Variance r'.

Definition dept_column (df : DataFrame) : string :=
  if has_column df "department" then "department" else "Department".

Definition pct_column (df : DataFrame) : string :=
  if has_column df "fully_met_pct" then "fully_met_pct" else "Fully Met %".

(** The frame [df] holds the records [recs], row by row, under either
    spelling of the two columns: the name is the text of the department
    cell and the percentage is the number of the percentage cell. *)
Definition holds_records (df : DataFrame) (recs : list DeptRecord) : Prop :=
  Forall2
    (fun row r =>
       series_get (columns df) row (dept_column df) PyNone = PyStr (name r)
       /\ series_get (columns df) row (pct_column df) PyNone = PyNum (pct r))
    (rows df) recs.

(** A percentage cell that is a number, or is blank ([None] or the empty
    text) and stands for 0. *)
Definition reads_as (v : pyval) (q : Q) : Prop :=
  match v with
  | PyNone => q == 0
  | PyNum q' => q == q'
  | PyStr s => s = "" /\ q == 0
  end.

(** As [holds_records], the percentage cells being numbers or blanks, and
    all of them 0 when the frame has no percentage column. *)
Definition holds_cells (df : DataFrame) (recs : list DeptRecord) : Prop :=
  Forall2
    (fun row r =>
       series_get (columns df) row (dept_column df) PyNone = PyStr (name r)
       /\ reads_as (series_get (columns df) row (pct_column df) (PyNum 0)) (pct r))
    (rows df) recs.

(** *** The top rows, in the words of the specification *)

(** The rows of a frame with their positions. *)
Definition enumerate {A} (l : list A) : list (nat * A) :=
  combine (seq 0 (List.length l)) l.

(** [x] ranks before [y]: its row is ahead, or ties and stood earlier. *)
Definition ranks {A} (ahead tie : A -> A -> Prop) (x y : nat * A) : Prop :=
  ahead (snd x) (snd y) \/ (tie (snd x) (snd y) /\ (fst x < fst y)%nat).

(** The comparison of a sort, on rows with their positions. *)
Definition precedes_at {A} (precedes : A -> A -> bool) (x y : nat * A) : bool :=
  precedes (snd x) (snd y).

(** [x] ranks before [y] among the largest: a larger Variance, or the
    same Variance and an earlier position. *)
Definition ranks_largest (x y : nat * VarianceRow) : Prop :=
  Variance (snd y) < Variance (snd x)
  \/ (Variance (snd x) == Variance (snd y) /\ (fst x < fst y)%nat).

(** [x] ranks before [y] among the smallest. *)
Definition ranks_smallest (x y : nat * VarianceRow) : Prop :=
  Variance (snd x) < Variance (snd y)
  \/ (Variance (snd x) == Variance (snd y) /\ (fst x < fst y)%nat).

(** [top] is the first [n] rows of [pool] in the ranking [ranks]. *)
Definition top_ranked (ranks : nat * VarianceRow -> nat * VarianceRow -> Prop)
    (n : nat) (pool top : list VarianceRow) : Prop :=
  exists ranked,
    Permutation ranked (enumerate pool)
    /\ StronglySorted ranks ranked
    /\ top = map snd (firstn n ranked).

(** [sub] is the rows of [df] that satisfy [P], in the order of [df]. *)
Definition rows_where (P : VarianceRow -> Prop) (df sub : list VarianceRow)
    : Prop :=
  exists p : VarianceRow -> bool,
    (forall r, p r = true <-> P r) /\ sub = filter p df.

(** The frames of the Cardiology example. *)
Definition example_before : DataFrame :=
  mkDF ["Department"; "Fully Met %"]
       [[PyStr "Cardiology"; PyNum 70]; [PyStr "-"; PyNum 0];
        [PyStr "Sum Total"; PyNum 100]].

Definition example_after : DataFrame :=
  mkDF ["Department"; "Fully Met %"] [[PyStr "Cardiology"; PyNum 85]].

(** Six departments, two pairs of them with the same Variance. *)
Definition example_analysis : list VarianceRow :=
  [mkRow "A" 50 60 10; mkRow "B" 80 95 15; mkRow "C" 70 70 0;
   mkRow "D" 40 50 10; mkRow "E" 90 85 (-5); mkRow "F" 60 75 15].

(** The sum of a series. *)
Definition Qsum (l : list Q) : Q := fold_right Qplus 0 l.

(** *** The rest of the store and of the Analysis tab *)

(** The name that [analyze_data] reads in a row of [before_df]. *)
Definition row_name (str_of_num : Q -> string) (df : DataFrame)
    (row : list pyval) : string :=
  strip (py_str str_of_num
           (series_get (columns df) row (dept_column df) (PyStr ""))).

(** What holds of every row that [analyze_data] reports: its name is
    not filtered out and is trimmed, and its Variance is After - Before. *)
Definition reported (r : VarianceRow) : Prop :=
  skipped (Department r) = false
  /\ strip (Department r) = Department r
  /\ Variance r = After r - Before r.

(** The rows of the table for a case and a year, and the records
    (department, fully met percentage) that they carry. *)
Definition case_year_rows (cid : string) (yr : Z) (t : Table) : Table :=
  filter (fun r => String.eqb (case_id r) cid && (year r =? yr)%Z) t.

Definition stored_records (cid : string) (yr : Z) (t : Table)
    : list DeptRecord :=
  map (fun r => mkDept (department r) (fully_met_pct r)) (case_year_rows cid yr t).

(** The primary key of a row of [case_data]. *)
Definition primary_key (r : CaseData) : string * string * Z :=
  (case_id r, department r, year r).

(** [get_case_years(case_id)]: [SELECT DISTINCT year ... WHERE case_id = ?].
    SQL leaves the order of the years open; they are listed here by
    last occurrence in the table, and only their membership and their
    number are used. *)
Definition get_case_years (cid : string) (t : Table) : list Z :=
  nodup Z.eq_dec (map year (filter (fun r => String.eqb (case_id r) cid) t)).

(** What the Analysis tab does with the years of the selected case and
    the two entries picked in the select boxes, given by their index in
    [year_options = sorted(years)]. *)
Inductive Periods : Type :=
| NeedTwoYears
| SamePeriod
| Compare (before_year after_year : Z).

Definition year_options (years : list Z) : list Z := sort_by Z.leb years.

Definition select_periods (years : list Z) (before_index after_index : nat)
    : Periods :=
  if (List.length years <? 2)%nat then NeedTwoYears
  else
    let before_year := nth before_index (year_options years) 0%Z in
    let after_year := nth after_index (year_options years) 0%Z in
    if (before_year =? after_year)%Z then SamePeriod
    else Compare before_year after_year.

(** The indices that the select boxes start with: [index=0] and
    [index=len(year_options)-1]. *)
Definition default_periods (years : list Z) : Periods :=
  select_periods years 0 (List.length (year_options years) - 1).

(** [range(0, stop, step)] for a positive [step]. *)
Definition range_step (stop step : nat) : list nat :=
  map (fun k => (k * step)%nat) (seq 0 ((stop + step - 1) / step)).

(** The rows of department cards:
    [[df.iloc[i:i+num_cols] for i in range(0, len(df), num_cols)]]. *)
Definition card_rows {A} (num_cols : nat) (df : list A) : list (list A) :=
  map (fun i => firstn num_cols (skipn i df))
      (range_step (List.length df) num_cols).

(** *** The table of cases *)

Module Cases.

(** A row of the table [cases], whose primary key is [case_id];
    [created_at] is filled by the store with the time of the insertion. *)
Record Case : Type := mkCase {
  case_id : string;
  description : string;
  case_date : Z;
  manager : string;
  notes : string;
  created_at : Z
}.

(** [add_case(case_id, description, case_date, manager, notes)], [now]
    being the time of the store. *)
Definition add_case (now : Z) (cid desc : string) (date : Z)
    (mgr nts : string) (t : list Case) : result (list Case) :=
  if existsb (fun c => String.eqb (case_id c) cid) t then raise DuckDBError
  else ret (t ++ [mkCase cid desc date mgr nts now])%list.

(** [get_cases()]: the four columns selected, [ORDER BY case_date DESC];
    cases of the same date, whose order SQL leaves open, are kept in the
    order of the table. *)
Definition get_cases (t : list Case) : list (string * string * Z * string) :=
  map (fun c => (case_id c, description c, case_date c, manager c))
      (sort_by (fun x y => (case_date y <=? case_date x)%Z) t).

(** What the form of the tab Add New Case shows when it is submitted,
    and the table it leaves. *)
Definition submit_case (now : Z) (cid desc : string) (date : Z)
    (mgr nts : string) (t : list Case) : Eva.Alert * string * list Case :=
  if String.eqb cid "" || String.eqb desc "" || String.eqb mgr "" then
    (Eva.Error, "Please fill in all required fields (*)", t)
  else
    match add_case now cid desc date mgr nts t with
    | inr t' =>
        (Eva.Success, "Case " ++ cid ++ " created successfully!", t')
    | inl _ => (Eva.Error, "Error: Case ID may already exist.", t)
    end.

End Cases.

End Hospital.

(** ** Properties of eva.py *)

Module EvaProps.

Import Eva.

Lemma Qne_bool_true (x y : Q) : Qne_bool x y = true -> ~ x == y.
Proof.
  unfold Qne_bool. intros H E. apply Qeq_bool_iff in E. rewrite E in H. discriminate.
Qed.

Lemma Qne_bool_false (x y : Q) : Qne_bool x y = false -> x == y.
Proof.
  unfold Qne_bool. intros H. apply Qeq_bool_iff.
  destruct (Qeq_bool x y); [reflexivity | discriminate].
Qed.

(** A guarded division never raises, and is the quotient or 0. *)
Lemma guarded_truediv (a b : Q) :
  exists v, (if Qne_bool b 0 then truediv a b else ret 0) = inr v
            /\ (b == 0 -> v == 0) /\ (~ b == 0 -> v == a / b).
Proof.
  unfold truediv, Qne_bool. destruct (Qeq_bool b 0) eqn:E; cbn.
  - exists 0. apply Qeq_bool_iff in E.
    split; [reflexivity | split; intros; [reflexivity | tauto]].
  - exists (a / b). apply Qeq_bool_neq in E.
    split; [reflexivity | split; intros; [tauto | reflexivity]].
Qed.

(** The run of [calculate_evm_metrics]: every guard protects its
    division, every key read back has been written, and the dictionary
    returned has these eleven entries. *)
Lemma calculate_evm_metrics_run (bac pv ev ac : Q) :
  exists spi cpi eac_t tcpi_bac tcpi_eac : Q,
    calculate_evm_metrics bac pv ev ac =
      inr [("SV", ev - pv); ("CV", ev - ac); ("SPI", spi); ("CPI", cpi);
           ("EAC_Typical", eac_t); ("EAC_Atypical", ac + (bac - ev));
           ("ETC_Typical", eac_t - ac);
           ("ETC_Atypical", ac + (bac - ev) - ac);
           ("VAC", bac - eac_t); ("TCPI_BAC", tcpi_bac);
           ("TCPI_EAC", tcpi_eac)]
    /\ ((pv == 0 -> spi == 0) /\ (~ pv == 0 -> spi == ev / pv))
    /\ ((ac == 0 -> cpi == 0) /\ (~ ac == 0 -> cpi == ev / ac))
    /\ ((cpi == 0 -> eac_t == 0) /\ (~ cpi == 0 -> eac_t == bac / cpi))
    /\ ((bac - ac == 0 -> tcpi_bac == 0)
        /\ (~ bac - ac == 0 -> tcpi_bac == (bac - ev) / (bac - ac)))
    /\ ((eac_t - ac == 0 -> tcpi_eac == 0)
        /\ (~ eac_t - ac == 0 -> tcpi_eac == (bac - ev) / (eac_t - ac))).
Proof.
  destruct (guarded_truediv ev pv) as (spi & Hspi & Hs).
  destruct (guarded_truediv ev ac) as (cpi & Hcpi & Hc).
  destruct (guarded_truediv bac cpi) as (eac_t & Heac & He).
  destruct (guarded_truediv (bac - ev) (bac - ac)) as (tb & Htb & Hb).
  destruct (guarded_truediv (bac - ev) (eac_t - ac)) as (te & Hte & Ht).
  exists spi, cpi, eac_t, tb, te.
  split; [| tauto].
  unfold calculate_evm_metrics.
  rewrite Hspi. cbn [bind]. rewrite Hcpi. cbn.
  rewrite Heac. cbn. rewrite Htb. cbn. rewrite Hte. reflexivity.
Qed.

(** C1 (as amended): for all inputs, and so for all non-negative ones,
    [calculate_evm_metrics] returns, without raising, a dictionary of
    eleven metrics (the keys listed, in this order) whose values are
    SV = EV - PV, CV = EV - AC, SPI = EV/PV or 0 when PV = 0, CPI = EV/AC
    or 0 when AC = 0, EAC_Typical = BAC/CPI or 0 when CPI = 0,
    EAC_Atypical = AC + (BAC - EV), ETC_Typical = EAC_Typical - AC,
    ETC_Atypical = EAC_Atypical - AC, VAC = BAC - EAC_Typical,
    TCPI_BAC = (BAC - EV)/(BAC - AC) or 0 when BAC = AC, and
    TCPI_EAC = (BAC - EV)/(EAC_Typical - AC) or 0 when EAC_Typical = AC.
    For BAC = 100000, PV = 50000, EV = 40000, AC = 45000 it returns
    SV = -10000, CV = -5000, SPI = 0.8, CPI = 8/9 (0.889 to three
    places), EAC_Typical = 112500, VAC = -12500 and TCPI_BAC = 12/11
    (1.09 to two places). *)
Theorem calculate_evm_metrics_formulas :
  (forall bac pv ev ac : Q,
     exists sv cv spi cpi eac_t eac_a etc_t etc_a vac tcpi_bac tcpi_eac : Q,
       calculate_evm_metrics bac pv ev ac =
         inr [("SV", sv); ("CV", cv); ("SPI", spi); ("CPI", cpi);
              ("EAC_Typical", eac_t); ("EAC_Atypical", eac_a);
              ("ETC_Typical", etc_t); ("ETC_Atypical", etc_a);
              ("VAC", vac); ("TCPI_BAC", tcpi_bac); ("TCPI_EAC", tcpi_eac)]
       /\ sv == ev - pv
       /\ cv == ev - ac
       /\ ((pv == 0 -> spi == 0) /\ (~ pv == 0 -> spi == ev / pv))
       /\ ((ac == 0 -> cpi == 0) /\ (~ ac == 0 -> cpi == ev / ac))
       /\ ((cpi == 0 -> eac_t == 0) /\ (~ cpi == 0 -> eac_t == bac / cpi))
       /\ eac_a == ac + (bac - ev)
       /\ etc_t == eac_t - ac
       /\ etc_a == eac_a - ac
       /\ vac == bac - eac_t
       /\ ((bac - ac == 0 -> tcpi_bac == 0)
           /\ (~ bac - ac == 0 -> tcpi_bac == (bac - ev) / (bac - ac)))
       /\ ((eac_t - ac == 0 -> tcpi_eac == 0)
           /\ (~ eac_t - ac == 0 -> tcpi_eac == (bac - ev) / (eac_t - ac))))
  /\ (exists m,
        calculate_evm_metrics 100000 50000 40000 45000 = inr m
        /\ has_metric m "SV" (-10000)
        /\ has_metric m "CV" (-5000)
        /\ has_metric m "SPI" (8 # 10)
        /\ (has_metric m "CPI" (8 # 9) /\ approx (8 # 9) (889 # 1000) (5 # 10000))
        /\ has_metric m "EAC_Typical" 112500
        /\ has_metric m "VAC" (-12500)
        /\ (has_metric m "TCPI_BAC" (12 # 11)
            /\ approx (12 # 11) (109 # 100) (5 # 1000))).
Proof.
  split.
  - intros bac pv ev ac.
    destruct (calculate_evm_metrics_run bac pv ev ac)
      as (spi & cpi & eac_t & tb & te & Hrun & Hs & Hc & He & Hb & Ht).
    exists (ev - pv), (ev - ac), spi, cpi, eac_t, (ac + (bac - ev)),
           (eac_t - ac), (ac + (bac - ev) - ac), (bac - eac_t), tb, te.
    split; [exact Hrun |].
    repeat (split; [first [reflexivity | assumption] |]). assumption.
  - eexists. split; [vm_compute; reflexivity |].
    unfold has_metric, approx.
    repeat split; try (eexists; split; [reflexivity | reflexivity]);
      vm_compute; discriminate.
Qed.

(** C1, the count: the dictionary returned for BAC = 100000, PV = 50000,
    EV = 40000, AC = 45000 has eleven keys, not twelve. *)
Lemma calculate_evm_metrics_eleven_keys :
  exists m,
    calculate_evm_metrics 100000 50000 40000 45000 = inr m
    /\ List.length (keys m) = 11%nat
    /\ List.length (keys m) <> 12%nat.
Proof.
  eexists. split; [vm_compute; reflexivity |].
  split; [reflexivity | discriminate].
Qed.

(** C5: for all inputs, and so for all non-negative ones, the metrics
    returned satisfy EAC_Typical * CPI = BAC whenever CPI is not 0,
    ETC_Typical = EAC_Typical - AC and ETC_Atypical = EAC_Atypical - AC. *)
Theorem eac_cpi_inverse_and_etc_identities (bac pv ev ac : Q) :
  exists m cpi eac_t eac_a etc_t etc_a,
    calculate_evm_metrics bac pv ev ac = inr m
    /\ getitem m "CPI" = inr cpi
    /\ getitem m "EAC_Typical" = inr eac_t
    /\ getitem m "EAC_Atypical" = inr eac_a
    /\ getitem m "ETC_Typical" = inr etc_t
    /\ getitem m "ETC_Atypical" = inr etc_a
    /\ (~ cpi == 0 -> eac_t * cpi == bac)
    /\ etc_t == eac_t - ac
    /\ etc_a == eac_a - ac.
Proof.
  destruct (calculate_evm_metrics_run bac pv ev ac)
    as (spi & cpi & eac_t & tb & te & Hrun & _ & _ & [_ He] & _).
  eexists. exists cpi, eac_t, (ac + (bac - ev)), (eac_t - ac), (ac + (bac - ev) - ac).
  split; [exact Hrun |].
  repeat (split; [reflexivity |]).
  split; [| split; reflexivity].
  intros Hn. rewrite (He Hn). field. exact Hn.
Qed.

(** The inverse relation at BAC = 100000, PV = 50000, EV = 40000,
    AC = 45000, where CPI = 8/9. *)
Lemma eac_cpi_inverse_example :
  exists m cpi eac_t,
    calculate_evm_metrics 100000 50000 40000 45000 = inr m
    /\ getitem m "CPI" = inr cpi
    /\ getitem m "EAC_Typical" = inr eac_t
    /\ ~ cpi == 0
    /\ eac_t * cpi == 100000.
Proof.
  destruct (eac_cpi_inverse_and_etc_identities 100000 50000 40000 45000)
    as (m & cpi & eac_t & eac_a & etc_t & etc_a
        & Hm & Hc & He & _ & _ & _ & Hinv & _).
  exists m, cpi, eac_t.
  assert (Hcpi : ~ cpi == 0).
  { vm_compute in Hm. injection Hm as <-. vm_compute in Hc.
    injection Hc as <-. discriminate. }
  repeat (split; [assumption |]). exact (Hinv Hcpi).
Defined.

(** *** The S-curve *)

Lemma smoothstep_monotone (a b : Q) :
  0 <= a -> a <= b -> b <= 1 -> smoothstep a <= smoothstep b.
Proof.
  intros Ha Hab Hb. unfold smoothstep.
  apply Qle_minus_iff.
  assert (E : 3 * b ^ 2 - 2 * b ^ 3 + - (3 * a ^ 2 - 2 * a ^ 3) ==
              (b - a) * (2 * (a * (1 - a)) + 2 * (b * (1 - b))
                         + a * (1 - b) + b * (1 - a))) by ring.
  rewrite E. clear E.
  assert (Ha1 : 0 <= 1 - a).
  { apply (Qle_minus_iff a 1). apply Qle_trans with b; assumption. }
  assert (Hb0 : 0 <= b) by (apply Qle_trans with a; assumption).
  assert (Hb1 : 0 <= 1 - b) by (apply (Qle_minus_iff b 1); assumption).
  assert (Hd : 0 <= b - a) by (apply (Qle_minus_iff a b); assumption).
  apply Qmult_le_0_compat; [assumption |].
  pose proof (Qmult_le_0_compat _ _ Ha Ha1).
  pose proof (Qmult_le_0_compat _ _ Hb0 Hb1).
  pose proof (Qmult_le_0_compat _ _ Ha Hb1).
  pose proof (Qmult_le_0_compat _ _ Hb0 Ha1).
  lra.
Qed.

#[local] Instance smoothstep_comp : Proper (Qeq ==> Qeq) smoothstep.
Proof. intros x y E. unfold smoothstep. rewrite E. reflexivity. Qed.

Lemma inject_Z_nonzero (z : Z) : z <> 0%Z -> ~ inject_Z z == 0.
Proof.
  intros Hz E. unfold Qeq, inject_Z in E. cbn [Qnum Qden] in E. lia.
Qed.

Lemma linspace_length (a b : Q) (num : nat) : List.length (linspace a b num) = num.
Proof.
  unfold linspace. destruct num as [| [| n]]; try reflexivity.
  rewrite length_app, length_firstn, length_map, length_seq. cbn [List.length]. lia.
Qed.

(** The samples of [linspace] are equally spaced from [a] to [b]. *)
Lemma linspace_nth (a b : Q) (n i : nat) :
  (i <= S n)%nat ->
  nth i (linspace a b (S (S n))) 0 ==
    a + inject_Z (Z.of_nat i) * (b - a) / inject_Z (Z.of_nat (S n)).
Proof.
  intros Hi. unfold linspace.
  assert (Hn : ~ inject_Z (Z.of_nat (S n)) == 0).
  { apply inject_Z_nonzero. lia. }
  destruct (Nat.eq_dec i (S n)) as [-> | Hne].
  - rewrite app_nth2; rewrite length_firstn, length_map, length_seq;
      [| lia].
    replace (S n - Nat.min (S n) (S (S n)))%nat with 0%nat by lia.
    cbn [nth]. field. exact Hn.
  - rewrite app_nth1
      by (rewrite length_firstn, length_map, length_seq; lia).
    rewrite nth_firstn.
    destruct (Nat.ltb_spec i (S n)) as [Hlt | Hge]; [| lia].
    set (f := fun i0 : nat => _).
    rewrite (nth_indep _ 0 (f 0%nat)) by (rewrite length_map, length_seq; lia).
    rewrite map_nth, seq_nth by lia. unfold f. cbn [Nat.add].
    replace (S (S n) - 1)%nat with (S n) by lia.
    field. exact Hn.
Qed.

Section Curve.

Variable D : Z.
Hypothesis D_pos : (0 < D)%Z.

Lemma duration_nonzero : ~ inject_Z D == 0.
Proof. apply inject_Z_nonzero. lia. Qed.

Lemma x_days_nth (i : nat) :
  (i < 100)%nat ->
  nth i (x_days D) 0 == inject_Z (Z.of_nat i) * inject_Z D / 99.
Proof.
  intros Hi. unfold x_days. rewrite linspace_nth by lia.
  change (inject_Z (Z.of_nat 99)) with 99. field.
Qed.

(** The normalised time of sample [i] is [i / 99]. *)
Lemma t_nth (i : nat) :
  (i < 100)%nat ->
  nth i (x_days D) 0 / inject_Z D == inject_Z (Z.of_nat i) / 99.
Proof.
  intros Hi. rewrite x_days_nth by assumption. field. exact duration_nonzero.
Qed.

Lemma y_percent_nth (i : nat) :
  (i < 100)%nat ->
  nth i (y_percent D) 0 = smoothstep (nth i (x_days D) 0 / inject_Z D).
Proof.
  intros Hi. unfold y_percent.
  assert (Hl : List.length (x_days D) = 100%nat) by apply linspace_length.
  rewrite (nth_indep _ 0 (smoothstep (0 / inject_Z D)))
    by (rewrite !length_map; lia).
  change (fun t : Q => 3 * t ^ 2 - 2 * t ^ 3) with smoothstep.
  rewrite (map_nth smoothstep).
  rewrite (map_nth (fun x => x / inject_Z D)). reflexivity.
Qed.

Lemma pv_curve_nth (bac : Q) (i : nat) :
  (i < 100)%nat ->
  nth i (pv_curve bac D) 0 = bac * nth i (y_percent D) 0.
Proof.
  intros Hi. unfold pv_curve.
  assert (Hl : List.length (y_percent D) = 100%nat).
  { unfold y_percent. rewrite !length_map. apply linspace_length. }
  rewrite (nth_indep _ 0 (bac * 0)) by (rewrite length_map; lia).
  apply (map_nth (fun y => bac * y)).
Qed.

Lemma y_percent_monotone (i j : nat) :
  (i <= j)%nat -> (j < 100)%nat ->
  nth i (y_percent D) 0 <= nth j (y_percent D) 0.
Proof.
  intros Hij Hj.
  rewrite !y_percent_nth by lia. rewrite !t_nth by lia.
  apply smoothstep_monotone.
  - apply Qle_shift_div_l; [reflexivity |].
    rewrite Qmult_0_l. change 0 with (inject_Z 0). rewrite <- Zle_Qle. lia.
  - apply Qmult_le_compat_r; [| apply Qle_bool_imp_le; reflexivity].
    rewrite <- Zle_Qle. lia.
  - apply Qle_shift_div_r; [reflexivity |].
    change (1 * 99) with (inject_Z 99). rewrite <- Zle_Qle. lia.
Qed.

End Curve.

(** C3: when PlanFinish > PlanStart, with D the days between them, the
    first trace of the figure is the curve: 100 samples, sample [i] at
    the offset x_i = i * D / 99 with the value BAC * (3 t_i^2 - 2 t_i^3)
    for t_i = x_i / D; the fractions y_i = 3 t_i^2 - 2 t_i^3 do not
    decrease with [i], nor do the values BAC * y_i for a budget that is
    not negative; y_0 = 0 and y_99 = 1.  When PlanFinish <= PlanStart the
    figure returned is the empty [go.Figure()]. *)
Theorem generate_s_curve_plot_samples
    (bac : Q) (start_date finish_date data_date : Z) (ev ac : Q) :
  let D := (finish_date - start_date)%Z in
  let fig := generate_s_curve_plot bac start_date finish_date data_date ev ac in
  ((start_date < finish_date)%Z ->
     (exists markers,
        traces fig =
          mkScatter (x_days D) (pv_curve bac D) "lines" "Planned Value (PV)"
          :: markers)
     /\ List.length (x_days D) = 100%nat
     /\ List.length (y_percent D) = 100%nat
     /\ List.length (pv_curve bac D) = 100%nat
     /\ (forall i, (i < 100)%nat ->
           let x := nth i (x_days D) 0 in
           let t := x / inject_Z D in
           x == inject_Z (Z.of_nat i) * inject_Z D / 99
           /\ nth i (y_percent D) 0 == 3 * t ^ 2 - 2 * t ^ 3
           /\ nth i (pv_curve bac D) 0 == bac * (3 * t ^ 2 - 2 * t ^ 3))
     /\ (forall i j, (i <= j)%nat -> (j < 100)%nat ->
           nth i (y_percent D) 0 <= nth j (y_percent D) 0
           /\ (0 <= bac -> nth i (pv_curve bac D) 0 <= nth j (pv_curve bac D) 0))
     /\ nth 0 (y_percent D) 0 == 0
     /\ nth 99 (y_percent D) 0 == 1)
  /\ ((finish_date <= start_date)%Z -> fig = go_Figure).
Proof.
  intros D fig. split.
  - intros Hlt. assert (HD : (0 < D)%Z) by (unfold D; lia).
    assert (Hx : List.length (x_days D) = 100%nat) by apply linspace_length.
    assert (Hy : List.length (y_percent D) = 100%nat).
    { unfold y_percent. rewrite !length_map. exact Hx. }
    split.
    { unfold fig, generate_s_curve_plot. fold D.
      destruct (Z.leb_spec D 0) as [Hle | _]; [lia |].
      eexists. reflexivity. }
    split; [exact Hx |]. split; [exact Hy |].
    split; [unfold pv_curve; rewrite length_map; exact Hy |].
    split.
    { intros i Hi x t. split; [apply x_days_nth; assumption |].
      rewrite pv_curve_nth, y_percent_nth by assumption.
      split; reflexivity. }
    split.
    { intros i j Hij Hj.
      pose proof (y_percent_monotone D HD i j Hij Hj) as Hy'.
      split; [exact Hy' |]. intros Hbac.
      rewrite !pv_curve_nth by lia.
      rewrite !(Qmult_comm bac). apply Qmult_le_compat_r; assumption. }
    split.
    + rewrite y_percent_nth, t_nth by (assumption || lia). reflexivity.
    + rewrite y_percent_nth, t_nth by (assumption || lia). reflexivity.
  - intros Hle. unfold fig, generate_s_curve_plot.
    destruct (Z.leb_spec (finish_date - start_date) 0) as [_ | Hgt];
      [reflexivity | lia].
Qed.

(** A plan of 364 days, from day 0 to day 364, and the degenerate plan
    that finishes on the day it starts. *)
Lemma generate_s_curve_plot_samples_example :
  (nth 0 (y_percent 364) 0 == 0 /\ nth 99 (y_percent 364) 0 == 1
   /\ nth 33 (x_days 364) 0 == 364 / 3)
  /\ generate_s_curve_plot 100000 10 10 10 40000 45000 = go_Figure.
Proof.
  pose proof (generate_s_curve_plot_samples 100000 0 364 180 40000 45000) as H.
  pose proof (generate_s_curve_plot_samples 100000 10 10 10 40000 45000) as H'.
  cbv zeta in H, H'. destruct H as [H _]. destruct H' as [_ H'].
  assert (Hlt : (0 < 364)%Z) by reflexivity.
  destruct (H Hlt) as (_ & _ & _ & _ & Hs & _ & H0 & H99).
  split.
  - split; [exact H0 |]. split; [exact H99 |].
    destruct (Hs 33%nat) as [Hx _]; [repeat constructor |].
    change (364 - 0)%Z with 364%Z in Hx. rewrite Hx. reflexivity.
  - apply H'. discriminate.
Defined.

(** *** The page *)




End EvaProps.

(** ** Properties of hospital_app.py *)

Module HospitalProps.

Import Hospital.

(** *** Rows and cells *)

Lemma series_get_found (cols : list string) (row : list pyval)
    (k : string) (d v : pyval) :
  series_get cols row k d = v -> v <> d ->
  forall d', series_get cols row k d' = v.
Proof.
  revert row. induction cols as [| c cols IH]; intros [| x row] H Hv d';
    cbn in *; try congruence.
  destruct (String.eqb c k); [assumption | eauto].
Qed.

Lemma series_get_column (cols : list string) (row : list pyval)
    (k : string) (d v : pyval) :
  series_get cols row k d = v -> v <> d ->
  existsb (String.eqb k) cols = true.
Proof.
  revert row. induction cols as [| c cols IH]; intros [| x row] H Hv;
    cbn in *; try congruence.
  rewrite (String.eqb_sym k c).
  destruct (String.eqb c k); [reflexivity | eauto].
Qed.

(** [float(v or 0)] of a number or a blank. *)
Lemma float_or_zero (v : pyval) (q : Q) :
  reads_as v q ->
  exists q', py_float (py_or v (PyNum 0)) = inr q' /\ q' == q.
Proof.
  destruct v as [| q0 | s]; cbn.
  - intros H. exists 0. split; [reflexivity | symmetry; assumption].
  - intros H. unfold py_or. cbn.
    destruct (Qne_bool q0 0) eqn:E; cbn.
    + exists q0. split; [reflexivity | symmetry; assumption].
    + exists 0. split; [reflexivity |].
      unfold Qne_bool in E. apply negb_false_iff, Qeq_bool_iff in E.
      rewrite H, E. reflexivity.
  - intros [-> H]. exists 0. split; [reflexivity | symmetry; assumption].
Qed.

(** The first row that a filter keeps is the one that [find] returns on
    the records of the rows. *)
Lemma filter_first_find {A B} (R : A -> B -> Prop)
    (p : A -> bool) (q : B -> bool) (l : list A) (l' : list B) :
  Forall2 R l l' ->
  (forall x y, R x y -> p x = q y) ->
  match filter p l with
  | [] => find q l' = None
  | first :: _ => exists y, find q l' = Some y /\ R first y
  end.
Proof.
  intros HF Hpq. induction HF as [| x y l l' Hxy HF IH]; cbn; [reflexivity |].
  rewrite <- (Hpq x y Hxy). destruct (p x); [eauto | exact IH].
Qed.

Lemma find_first {B} (q : B -> bool) (l : list B) (y : B) :
  find q l = Some y ->
  exists l1 l2, l = (l1 ++ y :: l2)%list /\ q y = true
                /\ Forall (fun x => q x = false) l1.
Proof.
  induction l as [| x l IH]; cbn; [discriminate |].
  destruct (q x) eqn:E.
  - intros [= ->]. exists [], l. repeat split; [assumption | constructor].
  - intros H. destruct (IH H) as (l1 & l2 & -> & Hy & Hl1).
    exists (x :: l1), l2. repeat split; [assumption | constructor; assumption].
Qed.

Lemma compareDepartments_no_after (before : list DeptRecord) :
  compareDepartments before [] = [].
Proof.
  unfold compareDepartments. induction before as [| b before IH];
    [reflexivity |].
  cbn [flat_map]. rewrite IH. destruct (skipped _); reflexivity.
Qed.

Section Refinement.

Variable str_of_num : Q -> string.
Variables before_df after_df : DataFrame.
Variable after : list DeptRecord.
Hypothesis after_holds : holds_cells after_df after.
Hypothesis after_rows : rows after_df <> [].

Lemma after_has_department :
  has_column after_df (dept_column after_df) = true.
Proof.
  unfold holds_cells in after_holds.
  destruct after_holds as [| row r l l' [Hn _] _]; [congruence |].
  unfold has_column. eapply series_get_column; [exact Hn | discriminate].
Qed.

Lemma select_department_find (n : string) :
  exists sel,
    select_department str_of_num after_df (dept_column after_df) n = inr sel
    /\ match sel with
       | [] => find (fun a => String.eqb (strip (name a)) n) after = None
       | first :: _ =>
           exists a,
             find (fun a => String.eqb (strip (name a)) n) after = Some a
             /\ reads_as (series_get (columns after_df) first
                                     (pct_column after_df) (PyNum 0)) (pct a)
       end.
Proof.
  unfold select_department. rewrite after_has_department.
  eexists. split; [reflexivity |].
  pose proof (filter_first_find _
    (fun r => String.eqb
                (strip (py_str str_of_num
                   (series_get (columns after_df) r (dept_column after_df) PyNone)))
                n)
    (fun a => String.eqb (strip (name a)) n) _ _ after_holds) as H.
  cbv beta in H.
  match type of H with (?P -> _) => assert (HP : P) end.
  { intros x y [Hn _]. rewrite Hn. reflexivity. }
  specialize (H HP).
  destruct (filter _ (rows after_df)) as [| first rest]; [exact H |].
  destruct H as (a & Ha & _ & Hp). eauto.
Qed.

Lemma analyze_rows_refines (todo : list (list pyval)) (before : list DeptRecord) :
  Forall2
    (fun row r =>
       series_get (columns before_df) row (dept_column before_df) PyNone
         = PyStr (name r)
       /\ reads_as (series_get (columns before_df) row (pct_column before_df)
                               (PyNum 0)) (pct r))
    todo before ->
  forall acc,
  exists out,
    analyze_rows str_of_num (columns before_df) after_df
      (dept_column before_df) (pct_column before_df)
      (dept_column after_df) (pct_column after_df) todo acc
      = inr (acc ++ out)%list
    /\ Forall2 row_eq out (compareDepartments before after).
Proof.
  induction 1 as [| row b todo before [Hn Hp] _ IH]; intros acc.
  - exists []. rewrite app_nil_r. split; [reflexivity | constructor].
  - cbn [analyze_rows compareDepartments flat_map].
    rewrite (series_get_found _ _ _ _ _ Hn) by discriminate.
    cbn [py_str]. fold (skipped (strip (name b))).
    destruct (skipped (strip (name b))).
    { apply IH. }
    destruct (select_department_find (strip (name b))) as (sel & -> & Hsel).
    cbn [bind]. destruct sel as [| first rest].
    { rewrite Hsel. apply IH. }
    destruct Hsel as (a & -> & Ha).
    destruct (float_or_zero _ _ Hp) as (bq & -> & Hbq).
    destruct (float_or_zero _ _ Ha) as (aq & -> & Haq).
    cbn [bind].
    destruct (IH (acc ++ [mkRow (strip (name b)) bq aq (aq - bq)])%list)
      as (out & -> & Hout).
    exists (mkRow (strip (name b)) bq aq (aq - bq) :: out).
    split; [rewrite <- app_assoc; reflexivity |].
    cbn [app]. constructor; [| exact Hout].
    unfold row_eq. cbn. rewrite Hbq, Haq. repeat split; reflexivity.
Qed.

End Refinement.

(** [analyze_data] on frames that hold records whose percentage cells
    are numbers or blanks. *)
Lemma analyze_data_refines (str_of_num : Q -> string)
    (before_df after_df : DataFrame) (before after : list DeptRecord) :
  holds_cells before_df before -> holds_cells after_df after ->
  exists out,
    analyze_data str_of_num before_df after_df = inr out
    /\ Forall2 row_eq out (compareDepartments before after).
Proof.
  intros Hb Ha. unfold analyze_data.
  destruct (df_empty before_df || df_empty after_df) eqn:E.
  - exists []. split; [reflexivity |].
    apply orb_true_iff in E.
    assert (Hnil : compareDepartments before after = []);
      [| rewrite Hnil; constructor].
    destruct E as [E | E]; unfold df_empty in E.
    + assert (before = []) as ->; [| reflexivity].
      unfold holds_cells in Hb.
      destruct Hb as [| row r l l' [Hn _] _]; [reflexivity |].
      destruct (columns before_df); [cbn in Hn; discriminate | discriminate].
    + assert (after = []) as ->.
      { unfold holds_cells in Ha.
        destruct Ha as [| row r l l' [Hn _] _]; [reflexivity |].
        destruct (columns after_df); [cbn in Hn; discriminate | discriminate]. }
      apply compareDepartments_no_after.
  - apply orb_false_iff in E. destruct E as [_ E].
    assert (Hrows : rows after_df <> []).
    { unfold df_empty in E. destruct (columns after_df); [discriminate |].
      destruct (rows after_df); [discriminate | discriminate]. }
    destruct (analyze_rows_refines str_of_num before_df after_df after Ha Hrows
                (rows before_df) before Hb []) as (out & Hout & HF).
    exists out. split; [exact Hout | exact HF].
Qed.


Lemma holds_records_cells (df : DataFrame) (recs : list DeptRecord) :
  holds_records df recs -> holds_cells df recs.
Proof.
  unfold holds_records, holds_cells. intros H.
  eapply Forall2_impl; [| exact H]. cbv beta. intros row r [Hn Hp].
  split; [exact Hn |].
  rewrite (series_get_found _ _ _ _ _ Hp) by discriminate. cbn. reflexivity.
Qed.

Lemma existsb_find {B} (q : B -> bool) (l : list B) :
  existsb q l = match find q l with Some _ => true | None => false end.
Proof.
  induction l as [| x l IH]; cbn; [reflexivity |].
  destruct (q x); [reflexivity | exact IH].
Qed.

(** The departments reported are the trimmed before names that are not
    skipped and have a match, in the before order. *)
Lemma compareDepartments_names (before after : list DeptRecord) :
  map Department (compareDepartments before after) =
  filter (fun n => negb (skipped n) && matched after n)
         (map (fun b => strip (name b)) before).
Proof.
  unfold compareDepartments, matched.
  induction before as [| b before IH]; [reflexivity |].
  cbn [flat_map map filter]. rewrite map_app, IH, existsb_find.
  destruct (skipped (strip (name b))); [reflexivity |].
  destruct (find _ after); reflexivity.
Qed.

(** Each row reported carries the percentage of the first after record
    that has its name. *)
Lemma compareDepartments_first (before after : list DeptRecord) :
  Forall
    (fun row =>
       exists l1 a l2,
         after = (l1 ++ a :: l2)%list
         /\ strip (name a) = Department row
         /\ Forall (fun a' => strip (name a') <> Department row) l1
         /\ After row == pct a
         /\ Variance row == After row - Before row)
    (compareDepartments before after).
Proof.
  unfold compareDepartments.
  induction before as [| b before IH]; [constructor |].
  cbn [flat_map]. apply Forall_app. split; [| exact IH].
  destruct (skipped (strip (name b))); [constructor |].
  destruct (find _ after) as [a |] eqn:E; [| constructor].
  constructor; [| constructor].
  destruct (find_first _ _ _ E) as (l1 & l2 & -> & Ha & Hl1).
  exists l1, a, l2. cbn.
  apply String.eqb_eq in Ha.
  repeat split; try reflexivity; [exact Ha |].
  eapply Forall_impl; [| exact Hl1]. cbv beta. intros a' Ha'.
  apply String.eqb_neq. exact Ha'.
Qed.

Lemma row_eq_names (out spec : list VarianceRow) :
  Forall2 row_eq out spec -> map Department out = map Department spec.
Proof.
  induction 1 as [| r r' out spec [Hd _] _ IH]; [reflexivity |].
  cbn. rewrite Hd, IH. reflexivity.
Qed.

Lemma row_eq_transfer (P : VarianceRow -> Prop) (out spec : list VarianceRow) :
  (forall r r', row_eq r r' -> P r' -> P r) ->
  Forall2 row_eq out spec -> Forall P spec -> Forall P out.
Proof.
  intros HP. induction 1 as [| r r' out spec Hr _ IH]; intros HF;
    [constructor |].
  inversion HF; subst. constructor; eauto.
Qed.

(** C2: on frames that hold before and after records, [analyze_data]
    returns the rows of compareDepartments: each before name is trimmed,
    skipped when it is empty, "-" or contains "Sum", matched with the
    after record of the same trimmed name and skipped without one; the
    departments reported are so the kept before names in the before
    order, with Variance = After - Before.  An empty frame on either side
    gives the empty result, and the Cardiology example gives the one row
    Cardiology, 70, 85, 15. *)
Theorem analyze_data_compares (str_of_num : Q -> string) :
  (forall before_df after_df before after,
      holds_records before_df before -> holds_records after_df after ->
      exists out,
        analyze_data str_of_num before_df after_df = inr out
        /\ Forall2 row_eq out (compareDepartments before after)
        /\ map Department out =
             filter (fun n => negb (skipped n) && matched after n)
                    (map (fun b => strip (name b)) before)
        /\ Forall (fun r => Variance r == After r - Before r) out)
  /\ (forall before_df after_df,
        df_empty before_df = true \/ df_empty after_df = true ->
        analyze_data str_of_num before_df after_df = inr [])
  /\ analyze_data str_of_num example_before example_after
       = inr [mkRow "Cardiology" 70 85 15].
Proof.
  split; [| split].
  - intros before_df after_df before after Hb Ha.
    destruct (analyze_data_refines str_of_num before_df after_df before after
                (holds_records_cells _ _ Hb) (holds_records_cells _ _ Ha))
      as (out & Hout & HF).
    exists out. split; [exact Hout |]. split; [exact HF |]. split.
    + rewrite (row_eq_names _ _ HF). apply compareDepartments_names.
    + eapply row_eq_transfer; [| exact HF |].
      2: { eapply Forall_impl; [| apply compareDepartments_first].
           cbv beta. intros r (_ & _ & _ & _ & _ & _ & _ & H). exact H. }
      cbv beta. intros r r' (_ & Hb' & Ha' & Hv) H.
      rewrite Hv, Hb', Ha'. exact H.
  - intros before_df after_df H. unfold analyze_data.
    destruct H as [-> | ->]; [reflexivity | rewrite orb_true_r; reflexivity].
  - reflexivity.
Qed.

(** Frames with a padded name and an unmatched after department. *)
Lemma analyze_data_compares_example :
  let before_df :=
    mkDF ["department"; "fully_met_pct"]
         [[PyStr " Cardiology "; PyNum 70]; [PyStr "Summary"; PyNum 50];
          [PyStr "Oncology"; PyNum 60]] in
  let after_df :=
    mkDF ["Department"; "Fully Met %"]
         [[PyStr "Radiology"; PyNum 40]; [PyStr "Cardiology"; PyNum 85]] in
  holds_records before_df
    [mkDept " Cardiology " 70; mkDept "Summary" 50; mkDept "Oncology" 60]
  /\ holds_records after_df [mkDept "Radiology" 40; mkDept "Cardiology" 85]
  /\ exists out,
       analyze_data (fun _ => "") before_df after_df = inr out
       /\ map Department out = ["Cardiology"].
Proof.
  intros before_df after_df.
  assert (Hb : holds_records before_df
                 [mkDept " Cardiology " 70; mkDept "Summary" 50;
                  mkDept "Oncology" 60])
    by (repeat constructor).
  assert (Ha : holds_records after_df
                 [mkDept "Radiology" 40; mkDept "Cardiology" 85])
    by (repeat constructor).
  split; [exact Hb |]. split; [exact Ha |].
  destruct (analyze_data_compares (fun _ => "")) as [H _].
  destruct (H _ _ _ _ Hb Ha) as (out & Hout & _ & Hnames & _).
  exists out. split; [exact Hout | exact Hnames].
Defined.

(** C6 (as amended): on frames whose percentage cells are numbers or
    blanks, [analyze_data] returns without raising, a percentage that is
    missing (no percentage column, [None], or the empty text) counting as
    0 and a number as itself; a text that is not empty is handed to
    [float], which raises ValueError when the text is not a number. *)
Theorem blank_percentage_is_zero (str_of_num : Q -> string) :
  (forall before_df after_df before after,
      holds_cells before_df before -> holds_cells after_df after ->
      exists out,
        analyze_data str_of_num before_df after_df = inr out
        /\ Forall2 row_eq out (compareDepartments before after))
  /\ py_float (py_or PyNone (PyNum 0)) = inr 0
  /\ py_float (py_or (PyStr "") (PyNum 0)) = inr 0
  /\ (forall cols row key,
        ~ In key cols ->
        py_float (py_or (series_get cols row key (PyNum 0)) (PyNum 0)) = inr 0)
  /\ (forall q, exists q', py_float (py_or (PyNum q) (PyNum 0)) = inr q' /\ q' == q)
  /\ (forall s,
        s <> "" -> parse_float s = FloatInvalid ->
        py_float (py_or (PyStr s) (PyNum 0)) = inl (Raised ValueError)).
Proof.
  split; [| split; [| split; [| split; [| split]]]].
  - intros before_df after_df before after.
    apply analyze_data_refines.
  - reflexivity.
  - reflexivity.
  - intros cols row key Hk.
    assert (E : series_get cols row key (PyNum 0) = PyNum 0);
      [| rewrite E; reflexivity].
    revert row. induction cols as [| c cols IH]; intros [| x row];
      try reflexivity.
    cbn. destruct (String.eqb_spec c key) as [-> | _].
    + exfalso. apply Hk. left. reflexivity.
    + apply IH. intros H. apply Hk. right. exact H.
  - intros q. apply (float_or_zero (PyNum q) q). cbn. reflexivity.
  - intros s Hs Hp. unfold py_or. cbn [truthy].
    destruct (String.eqb_spec s "") as [-> | _]; [congruence |].
    cbn. rewrite Hp. reflexivity.
Qed.

(** A frame without percentage column, a [None], an empty text and a
    number; and the text "abc". *)
Lemma blank_percentage_is_zero_example :
  (exists out,
     analyze_data (fun _ => "")
       (mkDF ["Department"] [[PyStr "Cardiology"]; [PyStr "Oncology"]])
       (mkDF ["Department"; "Fully Met %"]
             [[PyStr "Oncology"; PyStr ""]; [PyStr "Cardiology"; PyNum 85]])
     = inr out
     /\ Forall2 row_eq out [mkRow "Cardiology" 0 85 85; mkRow "Oncology" 0 0 0])
  /\ py_float (py_or (PyStr "abc") (PyNum 0)) = inl (Raised ValueError).
Proof.
  destruct (blank_percentage_is_zero (fun _ => ""))
    as (H & _ & _ & _ & _ & Hbad).
  split.
  - destruct (H (mkDF ["Department"] [[PyStr "Cardiology"]; [PyStr "Oncology"]])
               (mkDF ["Department"; "Fully Met %"]
                     [[PyStr "Oncology"; PyStr ""]; [PyStr "Cardiology"; PyNum 85]])
               [mkDept "Cardiology" 0; mkDept "Oncology" 0]
               [mkDept "Oncology" 0; mkDept "Cardiology" 85])
      as (out & Hout & HF).
    + repeat constructor.
    + repeat constructor.
    + exists out. split; [exact Hout |].
      eapply Forall2_impl; [| exact HF]. cbv beta. intros r r' Hr. exact Hr.
  - apply Hbad; [discriminate | reflexivity].
Defined.

(** C6, as it is stated: a matched before record whose percentage is the
    text "abc" is not read as 0: [analyze_data] raises ValueError. *)
Lemma non_numeric_percentage_raises :
  py_float (py_or (PyStr "abc") (PyNum 0)) = inl (Raised ValueError)
  /\ (forall str_of_num,
        analyze_data str_of_num
          (mkDF ["Department"; "Fully Met %"] [[PyStr "Cardiology"; PyStr "abc"]])
          (mkDF ["Department"; "Fully Met %"] [[PyStr "Cardiology"; PyNum 85]])
        = inl (Raised ValueError)).
Proof.
  split; [reflexivity | intros f; reflexivity].
Qed.

(** C9: each row reported carries, as After, the percentage of the first
    after record (in the order of the after frame) whose trimmed name is
    the department; the records after it, duplicates included, play no
    part. *)
Theorem first_matching_after_record (str_of_num : Q -> string)
    (before_df after_df : DataFrame) (before after : list DeptRecord) :
  holds_cells before_df before -> holds_cells after_df after ->
  exists out,
    analyze_data str_of_num before_df after_df = inr out
    /\ Forall
         (fun row =>
            exists earlier a later,
              after = (earlier ++ a :: later)%list
              /\ strip (name a) = Department row
              /\ Forall (fun a' => strip (name a') <> Department row) earlier
              /\ After row == pct a)
         out.
Proof.
  intros Hb Ha.
  destruct (analyze_data_refines str_of_num before_df after_df before after Hb Ha)
    as (out & Hout & HF).
  exists out. split; [exact Hout |].
  eapply row_eq_transfer; [| exact HF |].
  2: { eapply Forall_impl; [| apply (compareDepartments_first before after)].
       cbv beta. intros r (l1 & a & l2 & H1 & H2 & H3 & H4 & _).
       exists l1, a, l2. repeat split; eassumption. }
  cbv beta. intros r r' (Hd & _ & Hq & _) (l1 & a & l2 & H1 & H2 & H3 & H4).
  exists l1, a, l2. rewrite Hd, Hq. repeat split; assumption.
Qed.

(** Cardiology twice in the after frame, with 85 and then 99. *)
Lemma first_matching_after_record_example :
  let before_df := mkDF ["Department"; "Fully Met %"] [[PyStr "Cardiology"; PyNum 70]] in
  let after_df :=
    mkDF ["Department"; "Fully Met %"]
         [[PyStr "Cardiology"; PyNum 85]; [PyStr " Cardiology"; PyNum 99]] in
  analyze_data (fun _ => "") before_df after_df = inr [mkRow "Cardiology" 70 85 15]
  /\ exists out,
       analyze_data (fun _ => "") before_df after_df = inr out
       /\ Forall
            (fun row =>
               exists earlier a later,
                 [mkDept "Cardiology" 85; mkDept " Cardiology" 99]
                   = (earlier ++ a :: later)%list
                 /\ strip (name a) = Department row
                 /\ Forall (fun a' => strip (name a') <> Department row) earlier
                 /\ After row == pct a)
            out.
Proof.
  intros before_df after_df. split; [reflexivity |].
  apply (first_matching_after_record (fun _ => "") before_df after_df
           [mkDept "Cardiology" 70]);
    repeat constructor.
Defined.


(** *** The store *)

Section Store.

Variable varchar_of_num : Q -> string.

Lemma to_integer_value (n m : Z) : to_integer n = inr m -> m = n.
Proof.
  unfold to_integer. destruct (_ && _); [intros [= <-]; reflexivity | discriminate].
Qed.

(** The row inserted carries the case and the year of the call. *)
Lemma insert_params_key (cid : string) (cols : list string)
    (row : list pyval) (yr : Z) (r : CaseData) :
  insert_params varchar_of_num cid cols row yr = inr r ->
  case_id r = cid /\ year r = yr.
Proof.
  unfold insert_params, bind.
  repeat match goal with
         | |- context [match ?x with inl _ => _ | inr _ => _ end] =>
             destruct x eqn:?; [discriminate |]
         end.
  intros [= <-]. cbn. split; [reflexivity |].
  eapply to_integer_value; eassumption.
Qed.

(** What the loop of [save_case_data] leaves: the table it found, then
    the rows of the frame that it converted and inserted, which are all
    of them when it returns. *)
Lemma insert_all_appends (cid : string) (cols : list string) (yr : Z)
    (todo : list (list pyval)) :
  forall (t : Table) (res : result unit) (t' : Table),
  insert_all varchar_of_num cid cols todo yr t = (res, t') ->
  exists k recs,
    t' = (t ++ recs)%list
    /\ Forall2 (fun row r => insert_params varchar_of_num cid cols row yr = inr r)
               (firstn k todo) recs
    /\ (res = inr tt -> k = List.length todo).
Proof.
  induction todo as [| row todo IH]; intros t res t'; cbn [insert_all].
  - intros [= <- <-]. exists 0%nat, []. rewrite app_nil_r.
    repeat split; constructor.
  - unfold bind.
    destruct (insert_params varchar_of_num cid cols row yr) as [e | r] eqn:Er.
    { intros [= <- <-]. exists 0%nat, []. rewrite app_nil_r.
      repeat split; [constructor | discriminate]. }
    unfold insert_row. destruct (existsb (same_key r) t).
    { intros [= <- <-]. exists 0%nat, []. rewrite app_nil_r.
      repeat split; [constructor | discriminate]. }
    intros H. destruct (IH _ _ _ H) as (k & recs & -> & HF & Hk).
    exists (S k), (r :: recs). rewrite <- app_assoc. cbn.
    repeat split; [constructor; assumption |].
    intros Hres. rewrite (Hk Hres). reflexivity.
Qed.

Lemma filter_excluded {A} (p : A -> bool) (l : list A) :
  filter p (filter (fun x => negb (p x)) l) = [].
Proof.
  induction l as [| x l IH]; [reflexivity |].
  cbn. destruct (p x) eqn:E; cbn; [exact IH | rewrite E; exact IH].
Qed.

Lemma filter_all {A} (p : A -> bool) (l : list A) :
  Forall (fun x => p x = true) l -> filter p l = l.
Proof.
  induction 1 as [| x l Hx _ IH]; [reflexivity |].
  cbn. rewrite Hx, IH. reflexivity.
Qed.

(** After a save, the rows of the key are those that the save inserted. *)
Lemma save_then_get (cid : string) (df : DataFrame) (yr : Z) (t : Table) :
  exists k recs,
    Forall2 (fun row r =>
               insert_params varchar_of_num cid (columns df) row yr = inr r)
            (firstn k (rows df)) recs
    /\ get_case_data cid yr (snd (save_case_data varchar_of_num cid df yr t))
       = mkDF case_data_columns (map selected recs)
    /\ (fst (save_case_data varchar_of_num cid df yr t) = inr tt ->
        k = List.length (rows df)).
Proof.
  unfold save_case_data.
  destruct (insert_all varchar_of_num cid (columns df) (rows df) yr
              (delete_case_year cid yr t)) as [res t'] eqn:E.
  destruct (insert_all_appends _ _ _ _ _ _ _ E) as (k & recs & -> & HF & Hk).
  exists k, recs. cbn [fst snd]. split; [exact HF |]. split; [| exact Hk].
  unfold get_case_data. f_equal. f_equal.
  rewrite filter_app. unfold delete_case_year.
  rewrite (filter_excluded
             (fun r => String.eqb (case_id r) cid && (year r =? yr)%Z)).
  cbn [app]. apply filter_all.
  clear - HF. remember (firstn k (rows df)) as l eqn:El. clear El.
  induction HF as [| row r l recs Hr _ IH]; constructor; [| exact IH].
  destruct (insert_params_key _ _ _ _ _ Hr) as [-> ->].
  rewrite String.eqb_refl, Z.eqb_refl. reflexivity.
Qed.

(** C8: after two consecutive saves for the same case and year, whatever
    the table held before and whatever the first save did, the rows that
    [get_case_data] returns for the key are rows of the second frame and
    none of the first: all the rows of the second frame, in order, when
    the second save returns, and the rows that it inserted before it
    raised otherwise. *)
Theorem save_case_data_replaces
    (cid : string) (df1 df2 : DataFrame) (yr : Z) (t : Table) :
  let t1 := snd (save_case_data varchar_of_num cid df1 yr t) in
  let saved := save_case_data varchar_of_num cid df2 yr t1 in
  (fst saved = inr tt ->
     exists recs,
       Forall2 (fun row r =>
                  insert_params varchar_of_num cid (columns df2) row yr = inr r)
               (rows df2) recs
       /\ get_case_data cid yr (snd saved)
          = mkDF case_data_columns (map selected recs))
  /\ (exists k recs,
        Forall2 (fun row r =>
                   insert_params varchar_of_num cid (columns df2) row yr = inr r)
                (firstn k (rows df2)) recs
        /\ get_case_data cid yr (snd saved)
           = mkDF case_data_columns (map selected recs)).
Proof.
  intros t1 saved. unfold saved.
  destruct (save_then_get cid df2 yr t1) as (k & recs & HF & Hget & Hk).
  split.
  - intros Hres. exists recs. split; [| exact Hget].
    rewrite (Hk Hres), firstn_all in HF. exact HF.
  - exists k, recs. split; assumption.
Qed.

End Store.

(** Two uploads for the case H1 and the year 2024: the first with
    Cardiology and Oncology, the second with Radiology alone. *)
Lemma save_case_data_replaces_example :
  let df1 :=
    mkDF ["Department"; "Fully Met"; "Fully Met %"]
         [[PyStr "Cardiology"; PyNum 7; PyNum 70];
          [PyStr "Oncology"; PyNum 6; PyNum 60]] in
  let df2 :=
    mkDF ["Department"; "Fully Met"; "Fully Met %"]
         [[PyStr "Radiology"; PyNum 9; PyNum 90]] in
  let t1 := snd (save_case_data (fun _ => "") "H1" df1 2024 []) in
  let saved := save_case_data (fun _ => "") "H1" df2 2024 t1 in
  fst saved = inr tt
  /\ rows (get_case_data "H1" 2024 (snd saved))
     = [[PyStr "Radiology"; PyNum 9; PyNum 90; PyNum 0; PyNum 0;
         PyNum 0; PyNum 0; PyNum 0]]
  /\ exists recs,
       Forall2 (fun row r =>
                  insert_params (fun _ => "") "H1" (columns df2) row 2024 = inr r)
               (rows df2) recs
       /\ get_case_data "H1" 2024 (snd saved)
          = mkDF case_data_columns (map selected recs).
Proof.
  intros df1 df2 t1 saved.
  assert (Hres : fst saved = inr tt) by reflexivity.
  split; [exact Hres |]. split; [reflexivity |].
  destruct (save_case_data_replaces (fun _ => "") "H1" df1 df2 2024 []) as [H _].
  exact (H Hres).
Defined.

(** *** The summary *)

(** A stable insertion sort ranks the rows by their key, and rows of
    equal key by their position. *)
Section Stable.

Variable A : Type.
Variable precedes : A -> A -> bool.
Variables ahead tie : A -> A -> Prop.

Hypothesis precedes_true :
  forall x y, precedes x y = true -> ahead x y \/ tie x y.
Hypothesis precedes_false :
  forall x y, precedes x y = false -> ahead y x.
Hypothesis ahead_ahead : forall x y z, ahead x y -> ahead y z -> ahead x z.
Hypothesis ahead_tie : forall x y z, ahead x y -> tie y z -> ahead x z.
Hypothesis tie_ahead : forall x y z, tie x y -> ahead y z -> ahead x z.
Hypothesis tie_tie : forall x y z, tie x y -> tie y z -> tie x z.

#[local] Abbreviation ranks := (ranks ahead tie).
#[local] Abbreviation precedes_at := (precedes_at precedes).

Lemma insert_by_snd (x : nat * A) (l : list (nat * A)) :
  map snd (insert_by precedes_at x l) = insert_by precedes (snd x) (map snd l).
Proof.
  induction l as [| y l IH]; [reflexivity |].
  cbn. unfold Hospital.precedes_at at 1. destruct (precedes (snd x) (snd y)); cbn;
    [reflexivity | rewrite IH; reflexivity].
Qed.

Lemma sort_by_snd (l : list (nat * A)) :
  map snd (sort_by precedes_at l) = sort_by precedes (map snd l).
Proof.
  induction l as [| x l IH]; [reflexivity |].
  cbn. rewrite insert_by_snd, IH. reflexivity.
Qed.

Lemma insert_by_perm {B} (p : B -> B -> bool) (x : B) (l : list B) :
  Permutation (insert_by p x l) (x :: l).
Proof.
  induction l as [| y l IH]; cbn; [reflexivity |].
  destruct (p x y); [reflexivity |].
  rewrite IH. apply perm_swap.
Qed.

Lemma sort_by_perm {B} (p : B -> B -> bool) (l : list B) :
  Permutation (sort_by p l) l.
Proof.
  induction l as [| x l IH]; cbn; [reflexivity |].
  rewrite insert_by_perm, IH. reflexivity.
Qed.

(** A row goes in front of every row that it precedes and that stood
    after it. *)
Lemma insert_by_ranked (x : nat * A) (l : list (nat * A)) :
  StronglySorted ranks l ->
  Forall (fun y => (fst x < fst y)%nat) l ->
  StronglySorted ranks (insert_by precedes_at x l).
Proof.
  induction 1 as [| y l Hl IH Hy]; intros Hx; cbn.
  - constructor; constructor.
  - inversion Hx as [| ? ? Hxy Hxl]; subst.
    unfold Hospital.precedes_at at 1. destruct (precedes (snd x) (snd y)) eqn:E.
    + constructor; [constructor; assumption |].
      apply precedes_true in E.
      assert (Hfirst : ranks x y) by (unfold Hospital.ranks; tauto).
      constructor; [exact Hfirst |].
      rewrite Forall_forall in *. intros z Hz.
      specialize (Hy z Hz). specialize (Hxl z Hz).
      unfold Hospital.ranks in *.
      destruct E as [E | E], Hy as [Hy | [Hy _]]; eauto.
    + apply precedes_false in E.
      constructor; [apply IH; assumption |].
      rewrite (insert_by_perm precedes_at x l).
      constructor; [left; exact E | exact Hy].
Qed.

Lemma enumerate_from_indices (k : nat) (l : list A) :
  Forall (fun y => (k <= fst y)%nat) (combine (seq k (List.length l)) l).
Proof.
  revert k. induction l as [| x l IH]; intros k; cbn; constructor.
  - cbn. lia.
  - eapply Forall_impl; [| apply (IH (S k))]. cbv beta. intros y Hy. lia.
Qed.

Lemma sort_by_ranked (k : nat) (l : list A) :
  StronglySorted ranks
    (sort_by precedes_at (combine (seq k (List.length l)) l)).
Proof.
  revert k. induction l as [| x l IH]; intros k; cbn; [constructor |].
  apply insert_by_ranked; [apply IH |].
  rewrite sort_by_perm.
  eapply Forall_impl; [| apply (enumerate_from_indices (S k))].
  cbv beta. cbn. intros y Hy. lia.
Qed.

Lemma enumerate_snd (k : nat) (l : list A) :
  map snd (combine (seq k (List.length l)) l) = l.
Proof.
  revert k. induction l as [| x l IH]; intros k; cbn; [reflexivity |].
  rewrite IH. reflexivity.
Qed.

(** The first [n] rows of the sort are the first [n] of the ranking. *)
Lemma firstn_sort_by_ranked (n : nat) (l : list A) :
  exists ranked,
    Permutation ranked (enumerate l)
    /\ StronglySorted ranks ranked
    /\ firstn n (sort_by precedes l) = map snd (firstn n ranked).
Proof.
  exists (sort_by precedes_at (enumerate l)).
  split; [apply sort_by_perm |]. split; [apply sort_by_ranked |].
  rewrite <- firstn_map, sort_by_snd. unfold enumerate.
  rewrite enumerate_snd. reflexivity.
Qed.

End Stable.

Lemma Qlt_bool_iff (x y : Q) : Qlt_bool x y = true <-> x < y.
Proof.
  unfold Qlt_bool. rewrite negb_true_iff. split.
  - intros H. apply Qnot_le_lt. intros Hle.
    apply Qle_bool_iff in Hle. congruence.
  - intros H. destruct (Qle_bool y x) eqn:E; [| reflexivity].
    apply Qle_bool_iff in E. exfalso. exact (Qlt_not_le _ _ H E).
Qed.

Lemma nlargest_top (n : nat) (pool : list VarianceRow) :
  top_ranked ranks_largest n pool (nlargest n pool).
Proof.
  unfold top_ranked, nlargest.
  apply (firstn_sort_by_ranked VarianceRow
           (fun x y => Qle_bool (Variance y) (Variance x))
           (fun x y => Variance y < Variance x)
           (fun x y => Variance x == Variance y)).
  - intros x y H. apply Qle_bool_iff, Qle_lteq in H.
    destruct H as [H | H]; [left; exact H | right; symmetry; exact H].
  - intros x y H. apply Qlt_bool_iff. unfold Qlt_bool. rewrite H. reflexivity.
  - intros x y z H1 H2. exact (Qlt_trans _ _ _ H2 H1).
  - intros x y z H1 H2. rewrite <- H2. exact H1.
  - intros x y z H1 H2. rewrite H1. exact H2.
  - intros x y z H1 H2. rewrite H1. exact H2.
Qed.

Lemma nsmallest_top (n : nat) (pool : list VarianceRow) :
  top_ranked ranks_smallest n pool (nsmallest n pool).
Proof.
  unfold top_ranked, nsmallest.
  apply (firstn_sort_by_ranked VarianceRow
           (fun x y => Qle_bool (Variance x) (Variance y))
           (fun x y => Variance x < Variance y)
           (fun x y => Variance x == Variance y)).
  - intros x y H. apply Qle_bool_iff, Qle_lteq in H. exact H.
  - intros x y H. apply Qlt_bool_iff. unfold Qlt_bool. rewrite H. reflexivity.
  - intros x y z H1 H2. exact (Qlt_trans _ _ _ H1 H2).
  - intros x y z H1 H2. rewrite <- H2. exact H1.
  - intros x y z H1 H2. rewrite H1. exact H2.
  - intros x y z H1 H2. rewrite H1. exact H2.
Qed.

Lemma rows_where_filter (P : VarianceRow -> Prop) (p : VarianceRow -> bool)
    (df : list VarianceRow) :
  (forall r, p r = true <-> P r) -> rows_where P df (filter p df).
Proof. intros H. exists p. split; [exact H | reflexivity]. Qed.

(** Every row is improved, declined or unchanged, and only one of them. *)
Lemma counts_partition (df : list VarianceRow) :
  (List.length (filter (fun r => Qlt_bool 0 (Variance r)) df)
   + List.length (filter (fun r => Qlt_bool (Variance r) 0) df)
   + List.length (filter (fun r => Qeq_bool (Variance r) 0) df))%nat
  = List.length df.
Proof.
  induction df as [| r df IH]; [reflexivity |].
  cbn [filter].
  destruct (Qlt_bool 0 (Variance r)) eqn:E1,
           (Qlt_bool (Variance r) 0) eqn:E2,
           (Qeq_bool (Variance r) 0) eqn:E3;
    cbn [List.length]; try lia; exfalso;
    repeat match goal with
           | H : Qlt_bool _ _ = true |- _ => apply Qlt_bool_iff in H
           | H : Qeq_bool _ _ = true |- _ => apply Qeq_bool_iff in H
           | H : Qeq_bool _ _ = false |- _ => apply Qeq_bool_neq in H
           | H : Qlt_bool ?x ?y = false |- _ =>
               assert (y <= x)
                 by (apply Qnot_lt_le; intros C; apply Qlt_bool_iff in C;
                     congruence);
               clear H
           end;
    lra.
Qed.

(** C7: for a frame of variance rows that is not empty, the summary has
    the mean of Before and the mean of After over all the rows; the
    improved rows are those of Variance > 0, the declined rows those of
    Variance < 0 and the unchanged rows those of Variance = 0, which the
    cards count; the top improved rows are the first three of the
    improved rows ranked by larger Variance and then earlier position,
    the top declined rows the first three of the declined rows ranked by
    smaller Variance and then earlier position; and the high performers
    are the departments of the rows with After >= 90. *)
Theorem generate_summary_figures (df : list VarianceRow) :
  df <> [] ->
  exists s,
    generate_summary (Some df) = Text s
    /\ total_before s == Qsum (map Before df) / inject_Z (Z.of_nat (List.length df))
    /\ total_after s == Qsum (map After df) / inject_Z (Z.of_nat (List.length df))
    /\ rows_where (fun r => 0 < Variance r) df (improved s)
    /\ rows_where (fun r => Variance r < 0) df (declined s)
    /\ improved_count (analysis_cards df) = List.length (improved s)
    /\ declined_count (analysis_cards df) = List.length (declined s)
    /\ (exists unchanged,
          rows_where (fun r => Variance r == 0) df unchanged
          /\ unchanged_count (analysis_cards df) = List.length unchanged)
    /\ (improved_count (analysis_cards df) + declined_count (analysis_cards df)
         + unchanged_count (analysis_cards df))%nat = List.length df
    /\ top_ranked ranks_largest 3 (improved s) (top_improved s)
    /\ top_ranked ranks_smallest 3 (declined s) (top_declined s)
    /\ (exists high,
          rows_where (fun r => 90 <= After r) df high
          /\ best_depts s = map Department high).
Proof.
  intros Hdf. destruct df as [| r0 df0]; [congruence |].
  set (df := r0 :: df0). eexists. split; [reflexivity |].
  cbn [total_before total_after improved declined top_improved top_declined
       best_depts].
  split; [unfold mean, Qsum; rewrite length_map; apply Qeq_refl |].
  split; [unfold mean, Qsum; rewrite length_map; apply Qeq_refl |].
  split; [apply rows_where_filter; intros r; apply Qlt_bool_iff |].
  split; [apply rows_where_filter; intros r; apply Qlt_bool_iff |].
  split; [reflexivity |]. split; [reflexivity |].
  split.
  { eexists. split; [| reflexivity].
    apply rows_where_filter. intros r. apply Qeq_bool_iff. }
  split; [apply counts_partition |].
  split; [apply nlargest_top |]. split; [apply nsmallest_top |].
  eexists. split; [| reflexivity].
  apply rows_where_filter. intros r. apply Qle_bool_iff.
Qed.

(** Six departments, with ties among the improved ones. *)
Lemma generate_summary_figures_example :
  example_analysis <> []
  /\ exists s,
       generate_summary (Some example_analysis) = Text s
       /\ map Department (top_improved s) = ["B"; "F"; "A"]
       /\ map Department (top_declined s) = ["E"]
       /\ best_depts s = ["B"]
       /\ top_ranked ranks_largest 3 (improved s) (top_improved s).
Proof.
  assert (Hne : example_analysis <> []) by discriminate.
  split; [exact Hne |].
  destruct (generate_summary_figures example_analysis Hne)
    as (s & Hs & _ & _ & _ & _ & _ & _ & _ & _ & Htop & _).
  exists s. vm_compute in Hs. injection Hs as <-.
  repeat split; try reflexivity. exact Htop.
Defined.



End HospitalProps.

(** ** More on eva.py *)

Module EvaMore.

Import Eva EvaProps.

#[local] Existing Instance smoothstep_comp.

(** *** The metrics *)



(** X2: when EV = 0 or AC = 0 the cost index is 0 and no typical
    forecast is made: EAC_Typical = 0, so that VAC = BAC and
    ETC_Typical = -AC. *)
Theorem no_forecast_without_cost_index (bac pv ev ac : Q) :
  ev == 0 \/ ac == 0 ->
  exists m cpi eac_t etc_t vac,
    calculate_evm_metrics bac pv ev ac = inr m
    /\ getitem m "CPI" = inr cpi
    /\ getitem m "EAC_Typical" = inr eac_t
    /\ getitem m "ETC_Typical" = inr etc_t
    /\ getitem m "VAC" = inr vac
    /\ cpi == 0 /\ eac_t == 0 /\ etc_t == - ac /\ vac == bac.
Proof.
  intros H0.
  destruct (calculate_evm_metrics_run bac pv ev ac)
    as (spi & cpi & eac_t & tb & te & Hrun & _ & [Hc0 Hc] & [He _] & _).
  eexists. exists cpi, eac_t, (eac_t - ac), (bac - eac_t).
  split; [exact Hrun |]. repeat (split; [reflexivity |]).
  assert (Hcpi : cpi == 0).
  { destruct (Qeq_dec ac 0) as [Hac | Hac]; [exact (Hc0 Hac) |].
    destruct H0 as [Hev | Hac']; [| tauto].
    rewrite (Hc Hac), Hev. field. exact Hac. }
  specialize (He Hcpi).
  split; [exact Hcpi |]. split; [exact He |].
  split; rewrite He; ring.
Qed.

Lemma no_forecast_without_cost_index_example :
  exists m,
    calculate_evm_metrics 100000 50000 0 45000 = inr m
    /\ has_metric m "ETC_Typical" (-45000) /\ has_metric m "VAC" 100000.
Proof.
  destruct (no_forecast_without_cost_index 100000 50000 0 45000)
    as (m & cpi & eac_t & etc_t & vac & Hm & _ & _ & He & Hv & _ & _ & E1 & E2).
  { left. reflexivity. }
  exists m. split; [exact Hm |].
  split; [exists etc_t | exists vac]; split; assumption.
Defined.

(** X3: for PV > 0 the schedule index is at least 1 exactly when the
    schedule variance is not negative, and for AC > 0 the cost index is
    at least 1 exactly when the cost variance is not negative. *)
Theorem index_and_variance_agree (bac pv ev ac : Q) :
  exists m sv cv spi cpi,
    calculate_evm_metrics bac pv ev ac = inr m
    /\ getitem m "SV" = inr sv /\ getitem m "CV" = inr cv
    /\ getitem m "SPI" = inr spi /\ getitem m "CPI" = inr cpi
    /\ (0 < pv -> (1 <= spi <-> 0 <= sv))
    /\ (0 < ac -> (1 <= cpi <-> 0 <= cv)).
Proof.
  destruct (calculate_evm_metrics_run bac pv ev ac)
    as (spi & cpi & eac_t & tb & te & Hrun & [_ Hs] & [_ Hc] & _).
  eexists. exists (ev - pv), (ev - ac), spi, cpi.
  split; [exact Hrun |]. repeat (split; [reflexivity |]).
  assert (Hdiv : forall a b, 0 < b -> (1 <= a / b <-> 0 <= a - b)).
  { intros a b Hb. split; intros H.
    - apply (Qmult_le_compat_r _ _ b) in H; [| apply Qlt_le_weak; exact Hb].
      rewrite Qmult_1_l in H.
      assert (E : a / b * b == a) by (field; lra).
      rewrite E in H. lra.
    - apply Qle_shift_div_l; [exact Hb | lra]. }
  split; intros Hpos.
  - rewrite Hs by lra. apply Hdiv. exact Hpos.
  - rewrite Hc by lra. apply Hdiv. exact Hpos.
Qed.

Lemma index_and_variance_agree_example :
  exists m spi sv,
    calculate_evm_metrics 100000 50000 40000 45000 = inr m
    /\ getitem m "SPI" = inr spi /\ getitem m "SV" = inr sv
    /\ (1 <= spi <-> 0 <= sv).
Proof.
  destruct (index_and_variance_agree 100000 50000 40000 45000)
    as (m & sv & cv & spi & cpi & Hm & Hsv & _ & Hspi & _ & H & _).
  exists m, spi, sv. repeat (split; [assumption |]).
  apply H. reflexivity.
Defined.

(** *** The status summary *)

Lemma Qlt_bool_negb (x y : Q) : Qlt_bool x y = negb (Qle_bool y x).
Proof. reflexivity. Qed.

Lemma Qle_bool_div_1 (a b : Q) :
  0 < b -> Qle_bool 1 (a / b) = negb (Qlt_bool a b).
Proof.
  intros Hb. unfold Qlt_bool. rewrite negb_involutive.
  destruct (Qle_bool b a) eqn:E.
  - apply Qle_bool_iff. apply Qle_bool_iff in E.
    apply Qle_shift_div_l; [exact Hb | lra].
  - destruct (Qle_bool 1 (a / b)) eqn:E'; [| reflexivity].
    apply Qle_bool_iff in E'.
    apply (Qmult_le_compat_r _ _ b) in E'; [| apply Qlt_le_weak; exact Hb].
    assert (F : a / b * b == a) by (field; lra).
    rewrite F, Qmult_1_l in E'. apply Qle_bool_iff in E'. congruence.
Qed.

#[local] Instance Qle_bool_comp : Proper (Qeq ==> Qeq ==> eq) Qle_bool.
Proof.
  intros x x' Hx y y' Hy.
  destruct (Qle_bool x y) eqn:E, (Qle_bool x' y') eqn:E'; try reflexivity.
  - apply Qle_bool_iff in E. rewrite Hx, Hy in E.
    apply Qle_bool_iff in E. congruence.
  - apply Qle_bool_iff in E'. rewrite <- Hx, <- Hy in E'.
    apply Qle_bool_iff in E'. congruence.
Qed.

(** X4: for PV > 0 and AC > 0 the status summary says of the schedule
    and of the budget what the chart interpretation says: its text is
    "Project is", the schedule word, "and" or "but", and the budget word. *)
Theorem status_summary_agrees_with_chart (bac pv ev ac : Q) :
  0 < pv -> 0 < ac ->
  exists m alert text joiner,
    calculate_evm_metrics bac pv ev ac = inr m
    /\ status_summary m = inr (alert, text)
    /\ text = "Project is " ++ schedule_word ev pv ++ joiner
               ++ budget_word ac ev ++ "."
    /\ (joiner = " and " \/ joiner = " but ")
    /\ (alert = Success <-> pv <= ev /\ ac <= ev)
    /\ (alert = Error <-> ev < pv /\ ev < ac).
Proof.
  intros Hpv Hac.
  destruct (calculate_evm_metrics_run bac pv ev ac)
    as (spi & cpi & eac_t & tb & te & Hrun & [_ Hs] & [_ Hc] & _).
  assert (Es : Qle_bool 1 spi = negb (Qlt_bool ev pv)).
  { rewrite Hs by lra. apply Qle_bool_div_1. exact Hpv. }
  assert (Ec : Qle_bool 1 cpi = negb (Qlt_bool ev ac)).
  { rewrite Hc by lra. apply Qle_bool_div_1. exact Hac. }
  match type of Hrun with _ = inr ?d => exists d end.
  unfold status_summary, and_then, index_ge_1, index_lt_1, schedule_word,
    budget_word.
  cbn [getitem String.eqb Ascii.eqb Bool.eqb bind ret].
  rewrite !Qlt_bool_negb with (y := 1). rewrite Es, Ec.
  destruct (Qlt_bool ev pv) eqn:E1, (Qlt_bool ev ac) eqn:E2; cbn;
    [exists Error; eexists; exists " and "
    | exists Warning; eexists; exists " but "
    | exists Warning; eexists; exists " but "
    | exists Success; eexists; exists " and "];
    (split; [exact Hrun |]); (split; [reflexivity |]);
    (split; [reflexivity |]); (split; [tauto |]);
    repeat match goal with
           | H : Qlt_bool _ _ = true |- _ => apply HospitalProps.Qlt_bool_iff in H
           | H : Qlt_bool ?x ?y = false |- _ =>
               assert (y <= x)
                 by (apply Qnot_lt_le; intros C; apply HospitalProps.Qlt_bool_iff in C;
                     congruence);
               clear H
           end;
    split; split; intros; try discriminate; try reflexivity;
    intuition lra.
Qed.

Lemma status_summary_agrees_with_chart_example :
  exists m,
    calculate_evm_metrics 100000 50000 40000 45000 = inr m
    /\ status_summary m
       = inr (Error, "Project is Behind Schedule and Over Budget.")
    /\ schedule_word 40000 50000 = "Behind Schedule"
    /\ budget_word 45000 40000 = "Over Budget".
Proof.
  destruct (status_summary_agrees_with_chart 100000 50000 40000 45000)
    as (m & alert & text & joiner & Hm & Hs & _); try reflexivity.
  exists m. split; [exact Hm |].
  vm_compute in Hm. injection Hm as <-.
  repeat split; reflexivity.
Defined.

(** X5: with PV = 0 the schedule index is 0, so the status summary
    reports a project behind schedule whatever EV is, while the chart
    interpretation calls the same project ahead of schedule when EV is
    not negative; and with AC = 0 the summary reports a project over
    budget, while the chart interpretation calls it under budget. *)
Theorem status_summary_at_zero (bac pv ev ac : Q) :
  0 <= ev ->
  exists m alert text,
    calculate_evm_metrics bac pv ev ac = inr m
    /\ status_summary m = inr (alert, text)
    /\ (pv == 0 ->
        schedule_word ev pv = "Ahead of Schedule"
        /\ (text = "Project is Behind Schedule but Under Budget."
            \/ text = "Project is Behind Schedule and Over Budget."))
    /\ (ac == 0 ->
        budget_word ac ev = "Under Budget"
        /\ (text = "Project is Ahead of Schedule but Over Budget."
            \/ text = "Project is Behind Schedule and Over Budget.")).
Proof.
  intros Hev.
  destruct (calculate_evm_metrics_run bac pv ev ac)
    as (spi & cpi & eac_t & tb & te & Hrun & [Hs _] & [Hc _] & _).
  match type of Hrun with _ = inr ?d => exists d end.
  assert (Hword : forall x, x == 0 -> Qlt_bool ev x = false).
  { intros x Hx. unfold Qlt_bool. apply negb_false_iff, Qle_bool_iff. lra. }
  assert (Hidx : forall x, x == 0 -> Qle_bool 1 x = false).
  { intros x Hx. destruct (Qle_bool 1 x) eqn:E; [| reflexivity].
    apply Qle_bool_iff in E. lra. }
  unfold status_summary, and_then, index_ge_1, index_lt_1, schedule_word,
    budget_word.
  cbn [getitem String.eqb Ascii.eqb Bool.eqb bind ret].
  rewrite !Qlt_bool_negb with (y := 1).
  destruct (Qle_bool 1 spi) eqn:E1, (Qle_bool 1 cpi) eqn:E2; cbn;
    do 2 eexists; (split; [exact Hrun |]); (split; [reflexivity |]);
    split; intros H0;
    try (rewrite (Hidx _ (Hs H0)) in E1; discriminate);
    try (rewrite (Hidx _ (Hc H0)) in E2; discriminate);
    rewrite (Hword _ H0); split; auto.
Qed.

Lemma status_summary_at_zero_example :
  exists m,
    calculate_evm_metrics 100000 0 0 0 = inr m
    /\ status_summary m
       = inr (Error, "Project is Behind Schedule and Over Budget.")
    /\ schedule_word 0 0 = "Ahead of Schedule"
    /\ budget_word 0 0 = "Under Budget".
Proof.
  destruct (status_summary_at_zero 100000 0 0 0)
    as (m & alert & text & Hm & Hs & Hpv & Hac); [discriminate |].
  exists m. split; [exact Hm |].
  destruct Hpv as [Hw _]; [reflexivity |].
  destruct Hac as [Hb _]; [reflexivity |].
  vm_compute in Hm. injection Hm as <-.
  split; [reflexivity | split; [exact Hw | exact Hb]].
Defined.

(** *** The curve *)

Lemma smoothstep_symmetric (t : Q) : smoothstep t + smoothstep (1 - t) == 1.
Proof. unfold smoothstep. ring. Qed.

(** X6: for a plan of D > 0 days and a budget that is not negative, the
    planned value starts at 0, ends at BAC, and stays between 0 and BAC
    at each of the 100 samples. *)
Theorem pv_curve_within_budget (bac : Q) (D : Z) :
  (0 < D)%Z -> 0 <= bac ->
  nth 0 (pv_curve bac D) 0 == 0
  /\ nth 99 (pv_curve bac D) 0 == bac
  /\ forall i, (i < 100)%nat ->
       0 <= nth i (pv_curve bac D) 0 /\ nth i (pv_curve bac D) 0 <= bac.
Proof.
  intros HD Hbac.
  assert (H0 : nth 0 (y_percent D) 0 == 0).
  { rewrite y_percent_nth, t_nth by (assumption || lia). reflexivity. }
  assert (H99 : nth 99 (y_percent D) 0 == 1).
  { rewrite y_percent_nth, t_nth by (assumption || lia). reflexivity. }
  split; [rewrite pv_curve_nth, H0 by lia; ring |].
  split; [rewrite pv_curve_nth, H99 by lia; ring |].
  intros i Hi. rewrite pv_curve_nth by assumption.
  pose proof (y_percent_monotone D HD 0 i ltac:(lia) Hi) as Hlo.
  pose proof (y_percent_monotone D HD i 99 ltac:(lia) ltac:(lia)) as Hhi.
  rewrite H0 in Hlo. rewrite H99 in Hhi.
  split.
  - apply Qmult_le_0_compat; assumption.
  - rewrite <- (Qmult_1_r bac) at 2.
    rewrite !(Qmult_comm bac). apply Qmult_le_compat_r; assumption.
Qed.

Lemma pv_curve_within_budget_example :
  nth 99 (pv_curve 100000 364) 0 == 100000
  /\ 0 <= nth 50 (pv_curve 100000 364) 0 <= 100000.
Proof.
  destruct (pv_curve_within_budget 100000 364) as (_ & H99 & H);
    [reflexivity | discriminate |].
  split; [exact H99 |]. apply H. repeat constructor.
Defined.

(** X7: the curve is symmetric about the middle of the plan: the
    fractions of the samples i and 99 - i add up to 1. *)
Theorem y_percent_symmetric (D : Z) (i : nat) :
  (0 < D)%Z -> (i < 100)%nat ->
  nth i (y_percent D) 0 + nth (99 - i) (y_percent D) 0 == 1.
Proof.
  intros HD Hi. rewrite !y_percent_nth by (assumption || lia).
  rewrite !t_nth by (assumption || lia).
  assert (E : inject_Z (Z.of_nat (99 - i)) / 99
              == 1 - inject_Z (Z.of_nat i) / 99).
  { rewrite Nat2Z.inj_sub by lia. unfold Zminus.
    rewrite inject_Z_plus, inject_Z_opp. change (inject_Z (Z.of_nat 99)) with 99.
    field. }
  rewrite E. apply smoothstep_symmetric.
Qed.

Lemma y_percent_symmetric_example :
  nth 10 (y_percent 364) 0 + nth 89 (y_percent 364) 0 == 1.
Proof.
  apply (y_percent_symmetric 364 10); [reflexivity | repeat constructor].
Defined.

(** X8: the 100 offsets run from day 0 to day D and increase strictly. *)
Theorem x_days_increasing (D : Z) :
  (0 < D)%Z ->
  nth 0 (x_days D) 0 == 0
  /\ nth 99 (x_days D) 0 == inject_Z D
  /\ forall i j, (i < j)%nat -> (j < 100)%nat ->
       nth i (x_days D) 0 < nth j (x_days D) 0.
Proof.
  intros HD.
  split; [rewrite x_days_nth by lia; reflexivity |].
  split; [rewrite x_days_nth by lia; change (inject_Z (Z.of_nat 99)) with 99;
          field |].
  intros i j Hij Hj. rewrite !x_days_nth by lia.
  apply Qmult_lt_compat_r; [reflexivity |].
  apply Qmult_lt_compat_r.
  - change 0 with (inject_Z 0). rewrite <- Zlt_Qlt. exact HD.
  - rewrite <- Zlt_Qlt. lia.
Qed.

Lemma x_days_increasing_example :
  nth 99 (x_days 364) 0 == 364 /\ nth 3 (x_days 364) 0 < nth 4 (x_days 364) 0.
Proof.
  destruct (x_days_increasing 364) as (_ & H99 & H); [reflexivity |].
  split; [exact H99 |]. apply H; repeat constructor.
Defined.

(** *** The page *)

(** X9: the figure of a dashboard is never the empty one: it has the
    curve and the two markers, a data date line and a budget line; the
    markers carry EV and AC unchanged at the elapsed day
    DataDate - PlanStart, which lies within the days 0..D of the curve. *)
Theorem dashboard_figure
    (bac : Q) (start_date finish_date data_date : Z) (ac ev pv : Q)
    (metrics : dict Q) (fig : Figure) :
  page bac start_date finish_date data_date ac ev pv
    = inr (Dashboard metrics fig) ->
  let D := (finish_date - start_date)%Z in
  let elapsed := (data_date - start_date)%Z in
  traces fig =
    [mkScatter (x_days D) (pv_curve bac D) "lines" "Planned Value (PV)";
     mkScatter [inject_Z elapsed] [ev] "markers+text" "Earned Value (EV)";
     mkScatter [inject_Z elapsed] [ac] "markers+text" "Actual Cost (AC)"]
  /\ vlines fig = [elapsed]
  /\ hlines fig = [bac]
  /\ (0 <= elapsed <= D)%Z /\ (0 < D)%Z.
Proof.
  unfold page.
  destruct (Z.geb_spec start_date finish_date) as [| Hplan]; [discriminate |].
  destruct (Z.ltb_spec data_date start_date) as [| H1]; [discriminate |].
  destruct (Z.gtb_spec data_date finish_date) as [| H2]; [discriminate |].
  cbn [orb]. unfold bind.
  destruct (calculate_evm_metrics bac pv ev ac) as [e | m]; [discriminate |].
  intros [= <- <-]. cbv zeta. unfold generate_s_curve_plot.
  destruct (Z.leb_spec (finish_date - start_date) 0) as [| _]; [lia |].
  cbn. repeat split; lia.
Qed.

Lemma dashboard_figure_example :
  exists metrics fig,
    page 100000 0 364 180 45000 40000 50000 = inr (Dashboard metrics fig)
    /\ vlines fig = [180%Z] /\ hlines fig = [100000].
Proof.
  destruct (page 100000 0 364 180 45000 40000 50000) as [e | [| | m fig]] eqn:E;
    try (vm_compute in E; discriminate).
  exists m, fig. split; [reflexivity |].
  destruct (dashboard_figure _ _ _ _ _ _ _ _ _ E) as (_ & Hv & Hh & _).
  split; assumption.
Defined.

(** X10: the page never raises, and it shows the error about the dates,
    without metrics or figure, exactly when PlanFinish is not after
    PlanStart, whatever the data date and the values are. *)
Theorem page_date_error
    (bac : Q) (start_date finish_date data_date : Z) (ac ev pv : Q) :
  exists p,
    page bac start_date finish_date data_date ac ev pv = inr p
    /\ ((finish_date <= start_date)%Z <->
        p = StError "Error: Plan Finish Date must be after Plan Start Date.").
Proof.
  unfold page.
  destruct (Z.geb_spec start_date finish_date) as [Hge | Hlt].
  - eexists. split; [reflexivity |]. split; [reflexivity | intros _; lia].
  - destruct ((data_date <? start_date)%Z || (data_date >? finish_date)%Z).
    + eexists. split; [reflexivity |]. split; [lia | discriminate].
    + destruct (calculate_evm_metrics_run bac pv ev ac)
        as (spi & cpi & eac_t & tb & te & Hrun & _).
      rewrite Hrun. eexists. split; [reflexivity |].
      split; [lia | discriminate].
Qed.

End EvaMore.

(** ** More on hospital_app.py *)

Module HospitalMore.

Import Hospital HospitalProps.

(** *** Names *)

Lemma lstrip_head (s : string) :
  match lstrip s with
  | EmptyString => True
  | String c _ => is_space c = false
  end.
Proof.
  induction s as [| c s IH]; cbn; [exact I |].
  destruct (is_space c) eqn:E; [exact IH | exact E].
Qed.

Lemma rstrip_head (c : ascii) (s : string) :
  is_space c = false -> exists r, rstrip (String c s) = String c r.
Proof.
  intros Hc. cbn. destruct (rstrip s); rewrite ?Hc; eauto.
Qed.

Lemma rstrip_idempotent (s : string) : rstrip (rstrip s) = rstrip s.
Proof.
  induction s as [| c s IH]; [reflexivity |].
  cbn. destruct (rstrip s) as [| c' r] eqn:E.
  - destruct (is_space c) eqn:Hc; [reflexivity |]. cbn. rewrite Hc. reflexivity.
  - cbn [rstrip] in *. rewrite IH. reflexivity.
Qed.

(** A trimmed name is left as it is by a second trim. *)
Lemma strip_idempotent (s : string) : strip (strip s) = strip s.
Proof.
  unfold strip. pose proof (lstrip_head s) as H.
  destruct (lstrip s) as [| c x]; [reflexivity |].
  destruct (rstrip_head c x H) as (r & Hr).
  rewrite Hr. cbn [lstrip]. rewrite H, <- Hr.
  apply rstrip_idempotent.
Qed.

Section AnyFrames.

Variable str_of_num : Q -> string.

Lemma analyze_rows_reported (before_cols : list string) (after_df : DataFrame)
    (dc pc adc apc : string) (todo : list (list pyval)) :
  forall acc out,
    analyze_rows str_of_num before_cols after_df dc pc adc apc todo acc = inr out ->
    Forall reported acc ->
    Forall reported out
    /\ (List.length out <= List.length acc + List.length todo)%nat.
Proof.
  induction todo as [| row todo IH]; intros acc out; cbn [analyze_rows].
  - intros [= <-] Hacc. split; [exact Hacc | cbn; lia].
  - set (n := strip (py_str str_of_num (series_get before_cols row dc (PyStr "")))).
    fold (skipped n). destruct (skipped n) eqn:Hn.
    { intros H Hacc. destruct (IH _ _ H Hacc) as [H1 H2].
      split; [exact H1 | cbn; lia]. }
    unfold bind at 1.
    destruct (select_department str_of_num after_df adc n) as [e | sel];
      [discriminate |].
    destruct sel as [| first rest].
    { intros H Hacc. destruct (IH _ _ H Hacc) as [H1 H2].
      split; [exact H1 | cbn; lia]. }
    unfold bind at 1.
    destruct (py_float _) as [e | bq]; [discriminate |].
    unfold bind at 1.
    destruct (py_float _) as [e | aq]; [discriminate |].
    intros H Hacc.
    destruct (IH _ _ H) as [H1 H2].
    + apply Forall_app. split; [exact Hacc |].
      constructor; [| constructor].
      unfold reported. cbn. split; [exact Hn |].
      split; [apply strip_idempotent | reflexivity].
    + split; [exact H1 |]. rewrite length_app in H2. cbn in *. lia.
Qed.

(** X11: whatever the two frames hold, when [analyze_data] returns it
    reports at most one row per row of the before frame, and each row
    reported has a name that is trimmed and not filtered out, and a
    Variance that is its After minus its Before. *)
Theorem analyze_data_reported (before_df after_df : DataFrame)
    (out : list VarianceRow) :
  analyze_data str_of_num before_df after_df = inr out ->
  (List.length out <= List.length (rows before_df))%nat
  /\ Forall
       (fun r =>
          skipped (Department r) = false
          /\ strip (Department r) = Department r
          /\ Variance r = After r - Before r)
       out.
Proof.
  unfold analyze_data.
  destruct (df_empty before_df || df_empty after_df).
  - intros [= <-]. split; [cbn; lia | constructor].
  - intros H. destruct (analyze_rows_reported _ _ _ _ _ _ _ _ _ H) as [H1 H2];
      [constructor |].
    split; [exact H2 | exact H1].
Qed.

(** When every name of the before frame is filtered out, nothing is
    looked up in the after frame. *)
Lemma analyze_rows_all_skipped (before_df after_df : DataFrame)
    (pc adc apc : string) (todo : list (list pyval)) (acc : list VarianceRow) :
  existsb (fun row => negb (skipped (row_name str_of_num before_df row))) todo
    = false ->
  analyze_rows str_of_num (columns before_df) after_df (dept_column before_df)
               pc adc apc todo acc = inr acc.
Proof.
  induction todo as [| row todo IH]; [reflexivity |].
  cbn [existsb analyze_rows]. intros H. apply orb_false_iff in H.
  destruct H as [H1 H2]. apply negb_false_iff in H1.
  unfold row_name in H1. fold (skipped (strip (py_str str_of_num
    (series_get (columns before_df) row (dept_column before_df) (PyStr ""))))).
  rewrite H1. apply IH. exact H2.
Qed.

(** X12: when the after frame has rows but no department column under
    either spelling, [analyze_data] raises KeyError('Department') as soon
    as a name of the before frame passes the filter, and returns the
    empty result when none does. *)
Theorem analyze_data_missing_after_column (before_df after_df : DataFrame) :
  df_empty before_df = false -> df_empty after_df = false ->
  has_column after_df "department" = false ->
  has_column after_df "Department" = false ->
  analyze_data str_of_num before_df after_df =
    if existsb (fun row => negb (skipped (row_name str_of_num before_df row)))
               (rows before_df)
    then inl (Raised (KeyError "Department"))
    else inr [].
Proof.
  intros Hb Ha H1 H2. unfold analyze_data. rewrite Hb, Ha, H1. cbn [orb].
  fold (dept_column before_df).
  generalize (@nil VarianceRow) as acc.
  induction (rows before_df) as [| row todo IH]; intros acc; [reflexivity |].
  cbn [existsb analyze_rows].
  fold (row_name str_of_num before_df row).
  fold (skipped (row_name str_of_num before_df row)).
  destruct (skipped (row_name str_of_num before_df row)); cbn [negb orb].
  - apply IH.
  - unfold select_department. rewrite H2. reflexivity.
Qed.

(** X13: when the before frame has no department column under either
    spelling, every name reads as empty and [analyze_data] returns the
    empty result, whatever the after frame is. *)
Theorem analyze_data_missing_before_column (before_df after_df : DataFrame) :
  has_column before_df "department" = false ->
  has_column before_df "Department" = false ->
  analyze_data str_of_num before_df after_df = inr [].
Proof.
  intros H1 H2. unfold analyze_data.
  destruct (df_empty before_df || df_empty after_df); [reflexivity |].
  fold (dept_column before_df).
  apply analyze_rows_all_skipped.
  assert (Hname : forall row, row_name str_of_num before_df row = "").
  { intros row. unfold row_name, dept_column. rewrite H1.
    assert (E : forall cols r,
               existsb (String.eqb "Department") cols = false ->
               series_get cols r "Department" (PyStr "") = PyStr "").
    { induction cols as [| c cols IH]; intros [| x r] Hc; try reflexivity.
      cbn [existsb series_get] in *.
      apply orb_false_iff in Hc. destruct Hc as [Hc1 Hc2].
      rewrite String.eqb_sym, Hc1. apply IH. exact Hc2. }
    rewrite (E _ _ H2). reflexivity. }
  induction (rows before_df) as [| row todo IH]; [reflexivity |].
  cbn [existsb]. rewrite Hname. exact IH.
Qed.

End AnyFrames.


Lemma analyze_data_reported_example :
  analyze_data (fun _ => "")
    (mkDF ["Department"; "Fully Met %"]
          [[PyStr " Cardiology "; PyStr "70.5"]; [PyNone; PyNum 1]])
    (mkDF ["Department"; "Fully Met %"]
          [[PyStr "None"; PyNone]; [PyStr "Cardiology"; PyStr " 85 "]])
  = inr [mkRow "Cardiology" (705 # 10) 85 (85 - (705 # 10));
         mkRow "None" 1 0 (0 - 1)]
  /\ Forall reported
            [mkRow "Cardiology" (705 # 10) 85 (85 - (705 # 10));
             mkRow "None" 1 0 (0 - 1)].
Proof.
  assert (E : analyze_data (fun _ => "")
    (mkDF ["Department"; "Fully Met %"]
          [[PyStr " Cardiology "; PyStr "70.5"]; [PyNone; PyNum 1]])
    (mkDF ["Department"; "Fully Met %"]
          [[PyStr "None"; PyNone]; [PyStr "Cardiology"; PyStr " 85 "]])
  = inr [mkRow "Cardiology" (705 # 10) 85 (85 - (705 # 10));
         mkRow "None" 1 0 (0 - 1)]) by reflexivity.
  split; [exact E |].
  exact (proj2 (analyze_data_reported _ _ _ _ E)).
Defined.

Lemma analyze_data_missing_after_column_example :
  analyze_data (fun _ => "")
    (mkDF ["Department"; "Fully Met %"] [[PyStr "Cardiology"; PyNum 70]])
    (mkDF ["Dept"; "Fully Met %"] [[PyStr "Cardiology"; PyNum 85]])
  = inl (Raised (KeyError "Department")).
Proof.
  apply (analyze_data_missing_after_column (fun _ => "")
           (mkDF ["Department"; "Fully Met %"] [[PyStr "Cardiology"; PyNum 70]])
           (mkDF ["Dept"; "Fully Met %"] [[PyStr "Cardiology"; PyNum 85]]));
    reflexivity.
Defined.

Lemma analyze_data_missing_before_column_example :
  analyze_data (fun _ => "")
    (mkDF ["Dept"; "Fully Met %"] [[PyStr "Cardiology"; PyNum 70]])
    (mkDF ["Dept"; "Fully Met %"] [[PyStr "Cardiology"; PyNum 85]])
  = inr [].
Proof.
  apply (analyze_data_missing_before_column (fun _ => "")); reflexivity.
Defined.

(** *** The store *)

Lemma get_case_data_holds (cid : string) (yr : Z) (t : Table) :
  holds_records (get_case_data cid yr t) (stored_records cid yr t).
Proof.
  unfold holds_records, get_case_data, stored_records, case_year_rows.
  cbn [rows columns].
  induction (filter _ t) as [| r l IH]; constructor; [| exact IH].
  split; reflexivity.
Qed.

(** X14: the analysis of two years of a case read back from the store
    never raises: it is the comparison of the departments and of the
    fully met percentages stored for the two years. *)
Theorem stored_years_compare (str_of_num : Q -> string)
    (cid : string) (before_year after_year : Z) (t : Table) :
  exists out,
    analyze_data str_of_num (get_case_data cid before_year t)
                            (get_case_data cid after_year t) = inr out
    /\ Forall2 row_eq out
         (compareDepartments (stored_records cid before_year t)
                             (stored_records cid after_year t)).
Proof.
  apply analyze_data_refines; apply holds_records_cells, get_case_data_holds.
Qed.

Section MoreStore.

Variable varchar_of_num : Q -> string.

Lemma same_key_iff (r x : CaseData) :
  same_key r x = true <-> primary_key r = primary_key x.
Proof.
  unfold same_key, primary_key. rewrite !andb_true_iff, !String.eqb_eq, Z.eqb_eq.
  split; [intros [[-> ->] ->]; reflexivity | intros [= -> -> ->]; auto].
Qed.

Lemma existsb_same_key (r : CaseData) (t : Table) :
  existsb (same_key r) t = false <-> ~ In (primary_key r) (map primary_key t).
Proof.
  split.
  - intros H Hin. apply in_map_iff in Hin. destruct Hin as (x & Hx & Hin).
    assert (E : existsb (same_key r) t = true);
      [| rewrite E in H; discriminate].
    apply existsb_exists. exists x. split; [exact Hin |].
    apply same_key_iff. symmetry. exact Hx.
  - intros H. destruct (existsb (same_key r) t) eqn:E; [| reflexivity].
    exfalso. apply H. apply existsb_exists in E. destruct E as (x & Hin & Hx).
    apply same_key_iff in Hx. rewrite Hx. apply in_map. exact Hin.
Qed.

(** The table after a save: the rows of the other keys, in their order,
    and then rows of the key of the save. *)
Lemma save_case_data_table (cid : string) (df : DataFrame) (yr : Z) (t : Table) :
  exists recs,
    snd (save_case_data varchar_of_num cid df yr t)
      = (delete_case_year cid yr t ++ recs)%list
    /\ Forall (fun r => case_id r = cid /\ year r = yr) recs
    /\ (fst (save_case_data varchar_of_num cid df yr t) = inr tt ->
        List.length recs = List.length (rows df)).
Proof.
  unfold save_case_data.
  destruct (insert_all varchar_of_num cid (columns df) (rows df) yr
              (delete_case_year cid yr t)) as [res t'] eqn:E.
  destruct (insert_all_appends _ _ _ _ _ _ _ _ E) as (k & recs & -> & HF & Hk).
  exists recs. cbn [fst snd]. split; [reflexivity |]. split.
  - clear - HF. remember (firstn k (rows df)) as l eqn:El. clear El.
    induction HF as [| row r l recs Hr _ IH]; constructor; [| exact IH].
    exact (insert_params_key _ _ _ _ _ _ Hr).
  - intros Hres. rewrite (Hk Hres), firstn_all in HF.
    symmetry. exact (Forall2_length HF).
Qed.

(** X15: a save for one case and year leaves the rows of every other
    case or year as they were. *)
Theorem save_case_data_other_keys (cid cid' : string) (df : DataFrame)
    (yr yr' : Z) (t : Table) :
  cid' <> cid \/ yr' <> yr ->
  get_case_data cid' yr' (snd (save_case_data varchar_of_num cid df yr t))
  = get_case_data cid' yr' t.
Proof.
  intros Hother.
  destruct (save_case_data_table cid df yr t) as (recs & -> & Hrecs & _).
  unfold get_case_data. f_equal. f_equal.
  assert (Hne : forall r, case_id r = cid -> year r = yr ->
                  String.eqb (case_id r) cid' && (year r =? yr')%Z = false).
  { intros r -> ->. apply andb_false_iff.
    destruct Hother as [H | H];
      [left; apply String.eqb_neq; congruence | right; apply Z.eqb_neq; congruence]. }
  rewrite filter_app.
  assert (E : filter (fun r => String.eqb (case_id r) cid' && (year r =? yr')%Z)
                     recs = []).
  { clear - Hrecs Hne. induction Hrecs as [| r recs [H1 H2] _ IH];
      [reflexivity |].
    cbn. rewrite (Hne r H1 H2). exact IH. }
  rewrite E, app_nil_r. unfold delete_case_year.
  induction t as [| r t IH]; [reflexivity |].
  cbn. destruct (String.eqb_spec (case_id r) cid) as [H1 | H1];
    destruct (Z.eqb_spec (year r) yr) as [H2 | H2]; cbn;
    try (rewrite IH; reflexivity).
  rewrite (Hne r H1 H2). exact IH.
Qed.

Lemma NoDup_map_filter {A B} (f : A -> B) (p : A -> bool) (l : list A) :
  NoDup (map f l) -> NoDup (map f (filter p l)).
Proof.
  induction l as [| x l IH]; cbn; [auto |].
  intros H. inversion H as [| ? ? Hx Hl]; subst.
  destruct (p x); cbn; [| auto].
  constructor; [| auto].
  intros Hin. apply Hx. apply in_map_iff in Hin.
  destruct Hin as (y & <- & Hy). apply in_map.
  apply filter_In in Hy. tauto.
Qed.

Lemma insert_all_keys (cid : string) (cols : list string) (yr : Z)
    (todo : list (list pyval)) :
  forall t, NoDup (map primary_key t) ->
  NoDup (map primary_key (snd (insert_all varchar_of_num cid cols todo yr t))).
Proof.
  induction todo as [| row todo IH]; intros t Ht; cbn [insert_all];
    [exact Ht |].
  unfold bind.
  destruct (insert_params varchar_of_num cid cols row yr) as [e | r];
    [exact Ht |].
  unfold insert_row. destruct (existsb (same_key r) t) eqn:E; [exact Ht |].
  apply IH. rewrite map_app. cbn.
  apply existsb_same_key in E.
  rewrite <- (rev_involutive (map primary_key t ++ [primary_key r])).
  apply NoDup_rev. rewrite rev_app_distr. cbn.
  constructor; [rewrite <- in_rev; exact E | apply NoDup_rev; exact Ht].
Qed.

(** X16: a table in which no two rows have the same primary key
    (case, department, year) is still such a table after a save, whether
    the save returns or raises. *)
Theorem save_case_data_keeps_primary_key (cid : string) (df : DataFrame)
    (yr : Z) (t : Table) :
  NoDup (map primary_key t) ->
  NoDup (map primary_key (snd (save_case_data varchar_of_num cid df yr t))).
Proof.
  intros Ht. unfold save_case_data. apply insert_all_keys.
  unfold delete_case_year. apply NoDup_map_filter. exact Ht.
Qed.


(** A frame that converts row by row is inserted whole when its rows
    clash neither with the table nor with one another. *)
Lemma insert_all_prefix (cid : string) (cols : list string) (yr : Z)
    (rest : list (list pyval)) (pre : list (list pyval)) (recs : Table) :
  Forall2 (fun row r => insert_params varchar_of_num cid cols row yr = inr r)
          pre recs ->
  forall t,
    NoDup (map primary_key recs) ->
    (forall r, In r recs -> ~ In (primary_key r) (map primary_key t)) ->
    insert_all varchar_of_num cid cols (pre ++ rest) yr t
    = insert_all varchar_of_num cid cols rest yr (t ++ recs)%list.
Proof.
  induction 1 as [| row r pre recs Hr _ IH]; intros t Hnd Hfresh.
  - rewrite app_nil_r. reflexivity.
  - cbn [app insert_all]. rewrite Hr. cbn [bind]. unfold insert_row.
    assert (E : existsb (same_key r) t = false).
    { apply existsb_same_key. apply Hfresh. left. reflexivity. }
    rewrite E. cbv beta iota delta [ret].
    cbn in Hnd. inversion Hnd as [| ? ? Hr' Hnd']; subst.
    rewrite IH.
    + rewrite <- app_assoc. reflexivity.
    + exact Hnd'.
    + intros r' Hin. rewrite map_app, in_app_iff. cbn.
      intros [H | [H | []]].
      * exact (Hfresh r' (or_intror Hin) H).
      * apply Hr'. rewrite H. apply in_map. exact Hin.
Qed.

Lemma deleted_key_absent (cid : string) (yr : Z) (t : Table) (r : CaseData) :
  case_id r = cid -> year r = yr ->
  ~ In (primary_key r) (map primary_key (delete_case_year cid yr t)).
Proof.
  intros Hc Hy Hin. apply in_map_iff in Hin. destruct Hin as (x & Hx & Hin).
  unfold delete_case_year in Hin. apply filter_In in Hin.
  destruct Hin as [_ Hin]. apply negb_true_iff, andb_false_iff in Hin.
  unfold primary_key in Hx. injection Hx as H1 _ H3.
  destruct Hin as [H | H];
    [apply String.eqb_neq in H | apply Z.eqb_neq in H]; congruence.
Qed.

(** X17: an upload in which a department comes twice is not saved
    whole: the save raises at the second occurrence, and leaves the
    table without the rows that the key had before and with the rows of
    the upload that come before that occurrence. *)
Theorem save_case_data_duplicate_department
    (cid : string) (df : DataFrame) (yr : Z) (t : Table)
    (pre rest : list (list pyval)) (row : list pyval)
    (recs : Table) (r : CaseData) :
  rows df = (pre ++ row :: rest)%list ->
  Forall2 (fun row r =>
             insert_params varchar_of_num cid (columns df) row yr = inr r)
          pre recs ->
  NoDup (map department recs) ->
  insert_params varchar_of_num cid (columns df) row yr = inr r ->
  In (department r) (map department recs) ->
  save_case_data varchar_of_num cid df yr t
  = (inl (Raised DuckDBError), (delete_case_year cid yr t ++ recs)%list).
Proof.
  intros Hrows Hpre Hnd Hr Hdup. unfold save_case_data. rewrite Hrows.
  assert (Hkeys : Forall (fun x => case_id x = cid /\ year x = yr) recs).
  { clear - Hpre. induction Hpre as [| row' r' l recs' H _ IH];
      constructor; [| exact IH].
    exact (insert_params_key _ _ _ _ _ _ H). }
  rewrite (insert_all_prefix _ _ _ _ _ _ Hpre).
  - cbn [insert_all]. rewrite Hr. cbn [bind]. unfold insert_row.
    assert (E : existsb (same_key r) (delete_case_year cid yr t ++ recs) = true);
      [| rewrite E; reflexivity].
    apply in_map_iff in Hdup. destruct Hdup as (x & Hx & Hin).
    apply existsb_exists. exists x. split; [apply in_or_app; right; exact Hin |].
    rewrite Forall_forall in Hkeys. destruct (Hkeys x Hin) as [H1 H2].
    destruct (insert_params_key _ _ _ _ _ _ Hr) as [H3 H4].
    apply same_key_iff. unfold primary_key. congruence.
  - clear - Hnd Hkeys. induction Hkeys as [| x recs [H1 H2] _ IH];
      [constructor |].
    cbn in *. inversion Hnd as [| ? ? Hx Hnd']; subst.
    constructor; [| exact (IH Hnd')].
    intros Hin. apply Hx. apply in_map_iff in Hin.
    destruct Hin as (y & Hy & Hin). apply in_map_iff. exists y.
    split; [| exact Hin]. unfold primary_key in Hy. congruence.
  - intros x Hin. rewrite Forall_forall in Hkeys.
    destruct (Hkeys x Hin) as [H1 H2]. apply deleted_key_absent; assumption.
Qed.

End MoreStore.

Lemma save_case_data_other_keys_example :
  let t := snd (save_case_data (fun _ => "") "H1"
                  (mkDF ["Department"; "Fully Met %"]
                        [[PyStr "Cardiology"; PyNum 70]]) 2023 []) in
  let t' := snd (save_case_data (fun _ => "") "H1"
                   (mkDF ["Department"; "Fully Met %"]
                         [[PyStr "Cardiology"; PyNum 85]]) 2024 t) in
  get_case_data "H1" 2023 t' = get_case_data "H1" 2023 t
  /\ rows (get_case_data "H1" 2023 t')
     = [[PyStr "Cardiology"; PyNum 0; PyNum 70; PyNum 0; PyNum 0; PyNum 0;
         PyNum 0; PyNum 0]].
Proof.
  intros t t'. split; [| reflexivity].
  apply (save_case_data_other_keys (fun _ => "") "H1" "H1").
  right. discriminate.
Defined.

Lemma save_case_data_keeps_primary_key_example :
  NoDup (map primary_key
           (snd (save_case_data (fun _ => "") "H1"
                   (mkDF ["Department"]
                         [[PyStr "Cardiology"]; [PyStr "Oncology"];
                          [PyStr "Cardiology"]]) 2024 []))).
Proof.
  apply (save_case_data_keeps_primary_key (fun _ => "")). constructor.
Defined.

Lemma save_case_data_duplicate_department_example :
  let old := mkDF ["Department"] [[PyStr "Radiology"]] in
  let df := mkDF ["Department"]
                 [[PyStr "Cardiology"]; [PyStr "Oncology"]; [PyStr "Cardiology"];
                  [PyStr "Urology"]] in
  let t := snd (save_case_data (fun _ => "") "H1" old 2024 []) in
  fst (save_case_data (fun _ => "") "H1" df 2024 t) = inl (Raised DuckDBError)
  /\ map department (snd (save_case_data (fun _ => "") "H1" df 2024 t))
     = ["Cardiology"; "Oncology"].
Proof.
  intros old df t.
  rewrite (save_case_data_duplicate_department (fun _ => "") "H1" df 2024 t
             [[PyStr "Cardiology"]; [PyStr "Oncology"]] [[PyStr "Urology"]]
             [PyStr "Cardiology"]
             [mkCaseData "H1" "Cardiology" 0 0 0 0 0 0 0 2024;
              mkCaseData "H1" "Oncology" 0 0 0 0 0 0 0 2024]
             (mkCaseData "H1" "Cardiology" 0 0 0 0 0 0 0 2024)).
  - split; reflexivity.
  - reflexivity.
  - repeat constructor.
  - repeat constructor; cbn; intuition discriminate.
  - reflexivity.
  - left. reflexivity.
Defined.


(** *** The years of a case *)

(** X18: [get_case_years] lists each year once, and lists a year
    exactly when [get_case_data] has rows for the case and that year. *)
Theorem case_years_listed (cid : string) (t : Table) :
  NoDup (get_case_years cid t)
  /\ forall yr,
       In yr (get_case_years cid t) <-> rows (get_case_data cid yr t) <> [].
Proof.
  split; [apply NoDup_nodup |].
  intros yr. unfold get_case_years, get_case_data. cbn [rows].
  rewrite nodup_In, in_map_iff. split.
  - intros (r & Hy & Hin). apply filter_In in Hin. destruct Hin as [Hin Hc].
    assert (Hr : In r (filter (fun r => String.eqb (case_id r) cid
                                        && (year r =? yr)%Z) t)).
    { apply filter_In. split; [exact Hin |].
      rewrite Hc, Hy, Z.eqb_refl. reflexivity. }
    destruct (filter _ t); [destruct Hr | discriminate].
  - intros H.
    destruct (filter (fun r => String.eqb (case_id r) cid && (year r =? yr)%Z) t)
      as [| r l] eqn:E; [exfalso; apply H; reflexivity |].
    assert (Hr : In r (filter (fun r => String.eqb (case_id r) cid
                                        && (year r =? yr)%Z) t))
      by (rewrite E; left; reflexivity).
    apply filter_In in Hr. destruct Hr as [Hin Hk].
    apply andb_true_iff in Hk. destruct Hk as [Hc Hy].
    exists r. split; [apply Z.eqb_eq; exact Hy |].
    apply filter_In. split; assumption.
Qed.

(** X19: a save that returns leaves the year listed for the case exactly
    when the frame saved has rows; the save of a frame without rows
    always returns, and removes the year. *)
Theorem save_case_data_lists_year (varchar_of_num : Q -> string)
    (cid : string) (df : DataFrame) (yr : Z) (t : Table) :
  let saved := save_case_data varchar_of_num cid df yr t in
  (rows df = [] -> fst saved = inr tt)
  /\ (fst saved = inr tt ->
      (In yr (get_case_years cid (snd saved)) <-> rows df <> [])).
Proof.
  intros saved. split.
  - intros Hrows. unfold saved, save_case_data. rewrite Hrows. reflexivity.
  - intros Hres. subst saved.
    match goal with
    | |- context [get_case_years cid ?t'] =>
        destruct (case_years_listed cid t') as [_ H]
    end.
    rewrite H.
    destruct (save_then_get varchar_of_num cid df yr t)
      as (k & recs & HF & -> & Hk).
    cbn [rows]. specialize (Hk Hres). subst k. rewrite firstn_all in HF.
    apply Forall2_length in HF.
    destruct (rows df), recs; cbn [List.length map] in *; try discriminate;
      split; intros H'; try discriminate; exfalso; apply H'; reflexivity.
Qed.

Lemma save_case_data_lists_year_example :
  let t := snd (save_case_data (fun _ => "") "H1"
                  (mkDF ["Department"] [[PyStr "Cardiology"]]) 2024 []) in
  let saved := save_case_data (fun _ => "") "H1" (mkDF ["Department"] []) 2024 t in
  get_case_years "H1" t = [2024%Z]
  /\ fst saved = inr tt
  /\ ~ In 2024%Z (get_case_years "H1" (snd saved)).
Proof.
  intros t saved. split; [reflexivity |].
  destruct (save_case_data_lists_year (fun _ => "") "H1"
              (mkDF ["Department"] []) 2024 t) as [H1 H2].
  fold saved in H1, H2.
  split; [apply H1; reflexivity |].
  intros Hin. apply (H2 (H1 eq_refl)) in Hin. apply Hin. reflexivity.
Defined.

(** *** Sorting *)

Section Sorted.

Variable A : Type.
Variable precedes : A -> A -> bool.
Hypothesis precedes_total :
  forall x y, precedes x y = false -> precedes y x = true.
Hypothesis precedes_trans :
  forall x y z, precedes x y = true -> precedes y z = true -> precedes x z = true.

Lemma insert_by_sorted (x : A) (l : list A) :
  StronglySorted (fun a b => precedes a b = true) l ->
  StronglySorted (fun a b => precedes a b = true) (insert_by precedes x l).
Proof.
  induction 1 as [| y l Hl IH Hy]; cbn; [repeat constructor |].
  destruct (precedes x y) eqn:E.
  - constructor; [constructor; assumption |].
    constructor; [exact E |].
    eapply Forall_impl; [| exact Hy]. cbv beta. intros z Hz. eauto.
  - constructor; [exact IH |].
    rewrite (insert_by_perm precedes x l).
    constructor; [apply precedes_total; exact E | exact Hy].
Qed.

Lemma sort_by_sorted (l : list A) :
  StronglySorted (fun a b => precedes a b = true) (sort_by precedes l).
Proof.
  induction l as [| x l IH]; cbn; [constructor |].
  apply insert_by_sorted. exact IH.
Qed.

End Sorted.

Lemma sorted_nth_le (l : list Z) (i j : nat) :
  StronglySorted (fun a b => (a <=? b)%Z = true) l ->
  (i < j)%nat -> (j < List.length l)%nat ->
  (nth i l 0 <= nth j l 0)%Z.
Proof.
  intros Hs. revert i j. induction Hs as [| x l Hl IH Hx]; intros i j Hij Hj;
    [cbn in Hj; lia |].
  destruct j as [| j]; [lia |]. cbn in Hj.
  destruct i as [| i]; cbn.
  - rewrite Forall_forall in Hx. apply Z.leb_le, Hx, nth_In. lia.
  - apply IH; lia.
Qed.

(** X20: for the years of a case, which are distinct, and two entries of
    the select boxes, the page asks for different periods exactly when
    the same entry is picked twice; an earlier entry for Before and a
    later one for After give a comparison from a smaller year to a
    larger one. *)
Theorem select_periods_same (years : list Z) (before_index after_index : nat) :
  NoDup years -> (2 <= List.length years)%nat ->
  (before_index < List.length years)%nat ->
  (after_index < List.length years)%nat ->
  (select_periods years before_index after_index = SamePeriod
   <-> before_index = after_index)
  /\ ((before_index < after_index)%nat ->
      exists b a,
        select_periods years before_index after_index = Compare b a
        /\ (b < a)%Z /\ In b years /\ In a years).
Proof.
  intros Hnd Hlen Hb Ha.
  assert (Hperm : Permutation (year_options years) years)
    by apply sort_by_perm.
  assert (Hl : List.length (year_options years) = List.length years)
    by (apply Permutation_length; exact Hperm).
  assert (Hnd' : NoDup (year_options years))
    by (eapply Permutation_NoDup; [symmetry; exact Hperm | exact Hnd]).
  assert (Hs : StronglySorted (fun a b => (a <=? b)%Z = true) (year_options years)).
  { apply sort_by_sorted.
    - intros x y H. apply Z.leb_le. apply Z.leb_gt in H. lia.
    - intros x y z H1 H2. apply Z.leb_le. apply Z.leb_le in H1, H2. lia. }
  unfold select_periods.
  destruct (Nat.ltb_spec (List.length years) 2) as [| _]; [lia |].
  split.
  - destruct (Z.eqb_spec (nth before_index (year_options years) 0%Z)
                         (nth after_index (year_options years) 0%Z)) as [E | E].
    + split; [intros _ | reflexivity].
      apply (proj1 (NoDup_nth (year_options years) 0%Z) Hnd'); lia || exact E.
    + split; [discriminate | intros ->; congruence].
  - intros Hlt.
    pose proof (sorted_nth_le _ _ _ Hs Hlt ltac:(lia)) as Hle.
    assert (Hne : nth before_index (year_options years) 0%Z
                  <> nth after_index (year_options years) 0%Z).
    { intros E.
      apply (proj1 (NoDup_nth (year_options years) 0%Z) Hnd') in E; lia. }
    destruct (Z.eqb_spec (nth before_index (year_options years) 0%Z)
                         (nth after_index (year_options years) 0%Z));
      [congruence |].
    do 2 eexists. split; [reflexivity |]. split; [lia |].
    split; apply (Permutation_in _ Hperm), nth_In; lia.
Qed.

Lemma select_periods_same_example :
  select_periods [2024; 2022; 2023]%Z 1 1 = SamePeriod
  /\ select_periods [2024; 2022; 2023]%Z 0 2 = Compare 2022 2024.
Proof.
  destruct (select_periods_same [2024; 2022; 2023]%Z 1 1) as [H _].
  - repeat constructor; cbn; intuition discriminate.
  - cbn; lia.
  - cbn; lia.
  - cbn; lia.
  - split; [apply H; reflexivity | reflexivity].
Defined.

(** X21: when a case has data for two years or more, the periods that
    the select boxes start with are its first and its last year, which
    differ: the comparison runs from the smaller to the larger, and the
    store has rows for both. *)
Theorem default_periods_differ (cid : string) (t : Table) :
  (2 <= List.length (get_case_years cid t))%nat ->
  exists b a,
    default_periods (get_case_years cid t) = Compare b a
    /\ (b < a)%Z
    /\ rows (get_case_data cid b t) <> []
    /\ rows (get_case_data cid a t) <> [].
Proof.
  intros Hlen. destruct (case_years_listed cid t) as [Hnd Hin].
  assert (Hl : List.length (year_options (get_case_years cid t))
               = List.length (get_case_years cid t))
    by (apply Permutation_length, sort_by_perm).
  unfold default_periods. rewrite Hl.
  destruct (select_periods_same (get_case_years cid t) 0
              (List.length (get_case_years cid t) - 1) Hnd Hlen) as [_ H];
    try lia.
  destruct H as (b & a & Hsel & Hlt & Hb & Ha); [lia |].
  exists b, a. split; [exact Hsel |]. split; [exact Hlt |].
  split; apply Hin; assumption.
Qed.

Lemma default_periods_differ_example :
  let t1 := snd (save_case_data (fun _ => "") "H1"
                   (mkDF ["Department"] [[PyStr "Cardiology"]]) 2024 []) in
  let t2 := snd (save_case_data (fun _ => "") "H1"
                   (mkDF ["Department"] [[PyStr "Cardiology"]]) 2022 t1) in
  default_periods (get_case_years "H1" t2) = Compare 2022 2024
  /\ exists b a,
       default_periods (get_case_years "H1" t2) = Compare b a /\ (b < a)%Z.
Proof.
  intros t1 t2. split; [reflexivity |].
  destruct (default_periods_differ "H1" t2) as (b & a & H & Hlt & _);
    [cbn; lia |].
  exists b, a. split; assumption.
Defined.


(** *** The department cards *)

Lemma chunks_concat {A} (n m : nat) :
  forall l : list A,
    (List.length l <= m * n)%nat ->
    List.concat (map (fun k => firstn n (skipn (k * n) l)) (seq 0 m)) = l.
Proof.
  induction m as [| m IH]; intros l Hl.
  - destruct l; [reflexivity | cbn in Hl; lia].
  - cbn [seq map List.concat]. rewrite <- seq_shift, map_map.
    cbn [Nat.mul skipn].
    transitivity (firstn n l ++ skipn n l)%list; [| apply firstn_skipn].
    f_equal.
    transitivity
      (List.concat (map (fun k => firstn n (skipn (k * n) (skipn n l))) (seq 0 m))).
    + f_equal. apply map_ext. intros k.
      rewrite skipn_skipn. f_equal. f_equal. lia.
    + apply IH. rewrite length_skipn. cbn in Hl. lia.
Qed.

(** X22: the department cards are laid out in rows of three: every
    department of the frame has its card, once and in the order of the
    frame, and every row holds one, two or three cards, so that each card
    has a column. *)
Theorem card_rows_cover {A} (df : list A) :
  List.concat (card_rows 3 df) = df
  /\ Forall (fun row => (1 <= List.length row <= 3)%nat) (card_rows 3 df)
  /\ List.length (card_rows 3 df) = ((List.length df + 2) / 3)%nat.
Proof.
  unfold card_rows, range_step. rewrite map_map.
  replace (List.length df + 3 - 1)%nat with (List.length df + 2)%nat by lia.
  pose proof (Nat.div_mod_eq (List.length df + 2) 3) as Hdiv.
  pose proof (Nat.mod_upper_bound (List.length df + 2) 3 ltac:(lia)) as Hmod.
  split; [apply chunks_concat; lia |].
  split; [| rewrite length_map, length_seq; reflexivity].
  apply Forall_forall. intros row Hin. apply in_map_iff in Hin.
  destruct Hin as (k & <- & Hk). apply in_seq in Hk.
  rewrite length_firstn, length_skipn. lia.
Qed.

(** *** The cases *)

Import Cases.

(** X23: the form of a new case never raises and keeps the case
    identifiers of the table distinct; it reports success exactly when
    the identifier, the description and the manager are filled in and
    the identifier is new, and only then does it change the table, which
    gains the case as its last row. *)
Theorem submit_case_outcome (now : Z) (cid desc : string) (date : Z)
    (mgr nts : string) (t : list Case) :
  NoDup (map case_id t) ->
  exists alert text t',
    submit_case now cid desc date mgr nts t = (alert, text, t')
    /\ NoDup (map case_id t')
    /\ (alert = Eva.Success <->
        cid <> "" /\ desc <> "" /\ mgr <> "" /\ ~ In cid (map case_id t))
    /\ (alert = Eva.Success ->
        t' = (t ++ [mkCase cid desc date mgr nts now])%list)
    /\ (alert <> Eva.Success -> t' = t).
Proof.
  intros Hnd. unfold submit_case, add_case.
  destruct (String.eqb_spec cid "") as [Hc | Hc]; cbn [orb].
  { do 3 eexists. split; [reflexivity |]. split; [exact Hnd |].
    split; [split; [discriminate | tauto] |].
    split; [discriminate | reflexivity]. }
  destruct (String.eqb_spec desc "") as [Hd | Hd]; cbn [orb].
  { do 3 eexists. split; [reflexivity |]. split; [exact Hnd |].
    split; [split; [discriminate | tauto] |].
    split; [discriminate | reflexivity]. }
  destruct (String.eqb_spec mgr "") as [Hm | Hm].
  { do 3 eexists. split; [reflexivity |]. split; [exact Hnd |].
    split; [split; [discriminate | tauto] |].
    split; [discriminate | reflexivity]. }
  destruct (existsb (fun c => String.eqb (case_id c) cid) t) eqn:E.
  - do 3 eexists. split; [reflexivity |]. split; [exact Hnd |].
    split; [split; [discriminate |] |].
    + intros (_ & _ & _ & Hnew). exfalso. apply Hnew.
      apply existsb_exists in E. destruct E as (c & Hin & Hc').
      apply String.eqb_eq in Hc'. rewrite <- Hc'. apply in_map. exact Hin.
    + split; [discriminate | reflexivity].
  - assert (Hnew : ~ In cid (map case_id t)).
    { intros Hin. apply in_map_iff in Hin. destruct Hin as (c & Hc' & Hin).
      assert (E' : existsb (fun c => String.eqb (case_id c) cid) t = true);
        [| rewrite E' in E; discriminate].
      apply existsb_exists. exists c. split; [exact Hin |].
      apply String.eqb_eq. exact Hc'. }
    do 3 eexists. split; [reflexivity |]. split.
    + rewrite map_app. cbn.
      rewrite <- (rev_involutive (map case_id t ++ [cid])).
      apply NoDup_rev. rewrite rev_app_distr. cbn.
      constructor; [rewrite <- in_rev; exact Hnew | apply NoDup_rev; exact Hnd].
    + split; [tauto |]. split; [reflexivity | congruence].
Qed.

Lemma submit_case_outcome_example :
  let t := [mkCase "H1" "Audit" 100 "Ann" "" 5] in
  submit_case 7 "H1" "Again" 120 "Bob" "" t
    = (Eva.Error, "Error: Case ID may already exist.", t)
  /\ submit_case 7 "H2" "Again" 120 "Bob" "" t
     = (Eva.Success, "Case H2 created successfully!",
        [mkCase "H1" "Audit" 100 "Ann" "" 5; mkCase "H2" "Again" 120 "Bob" "" 7])
  /\ exists alert text t',
       submit_case 7 "H2" "Again" 120 "Bob" "" t = (alert, text, t')
       /\ NoDup (map case_id t').
Proof.
  intros t. split; [reflexivity |]. split; [reflexivity |].
  destruct (submit_case_outcome 7 "H2" "Again" 120 "Bob" "" t)
    as (alert & text & t' & H & Hnd & _).
  - repeat constructor. intros [].
  - exists alert, text, t'. split; assumption.
Defined.

(** X24: [get_cases] lists every case of the table once, the cases of a
    later date before those of an earlier one. *)
Theorem get_cases_order (t : list Case) :
  Permutation (get_cases t)
              (map (fun c => (case_id c, description c, case_date c, manager c)) t)
  /\ StronglySorted
       (fun x y => (snd (fst y) <= snd (fst x))%Z)
       (get_cases t).
Proof.
  unfold get_cases. split.
  - apply Permutation_map, sort_by_perm.
  - pose proof (sort_by_sorted Case
      (fun x y => (case_date y <=? case_date x)%Z)) as Hs.
    cbv beta in Hs.
    specialize (Hs
      ltac:(intros x y H; apply Z.leb_le; apply Z.leb_gt in H; lia)
      ltac:(intros x y z H1 H2; apply Z.leb_le; apply Z.leb_le in H1, H2; lia) t).
    induction Hs as [| c l Hl IH Hc]; cbn [map]; constructor; [exact IH |].
    rewrite Forall_map. eapply Forall_impl; [| exact Hc].
    cbv beta. intros y Hy. cbn. apply Z.leb_le. exact Hy.
Qed.


(** *** The summary *)

Lemma Qsum_variance (df : list VarianceRow) :
  Forall (fun r => Variance r == After r - Before r) df ->
  Qsum (map After df) - Qsum (map Before df) == Qsum (map Variance df).
Proof.
  induction 1 as [| r df Hr _ IH]; cbn; [reflexivity |].
  unfold Qsum in IH. rewrite <- IH, Hr. ring.
Qed.

Lemma mean_variance (df : list VarianceRow) :
  df <> [] ->
  Forall (fun r => Variance r == After r - Before r) df ->
  mean (map After df) - mean (map Before df) == mean (map Variance df).
Proof.
  intros Hne HF. unfold mean. rewrite !length_map.
  fold (Qsum (map After df)) (Qsum (map Before df)) (Qsum (map Variance df)).
  rewrite <- (Qsum_variance df HF).
  assert (Hn : ~ inject_Z (Z.of_nat (List.length df)) == 0).
  { apply EvaProps.inject_Z_nonzero. destruct df; [congruence | cbn; lia]. }
  field. exact Hn.
Qed.

Lemma Qsum_nonneg (l : list Q) : Forall (fun x => 0 <= x) l -> 0 <= Qsum l.
Proof.
  induction 1 as [| x l Hx _ IH]; cbn; [apply Qle_refl |].
  unfold Qsum in IH. lra.
Qed.



(** X26: for rows whose Variance is After - Before, the narrative says
    "declined", and the change card "Decline", only when some department
    declined. *)
Theorem decline_needs_a_declined_department (df : list VarianceRow) :
  df <> [] ->
  Forall (fun r => Variance r == After r - Before r) df ->
  exists s,
    generate_summary (Some df) = Text s
    /\ (overall_word s = "declined" -> declined s <> [])
    /\ (change_label (analysis_cards df) = "Decline" -> declined s <> []).
Proof.
  intros Hne HF. pose proof (mean_variance df Hne HF) as E.
  assert (Hkey : filter (fun r => Qlt_bool (Variance r) 0) df = [] ->
                 Qle_bool 0 (mean (map After df) - mean (map Before df)) = true).
  { intros Hnil. apply Qle_bool_iff. rewrite E. unfold mean.
    apply Qle_shift_div_l.
    - rewrite length_map. change 0 with (inject_Z 0). rewrite <- Zlt_Qlt.
      destruct df; [congruence | cbn; lia].
    - rewrite Qmult_0_l. apply (Qsum_nonneg (map Variance df)).
      rewrite Forall_map. apply Forall_forall. intros r Hr.
      destruct (Qlt_bool (Variance r) 0) eqn:El.
      + assert (Hin : In r (filter (fun r => Qlt_bool (Variance r) 0) df))
          by (apply filter_In; split; assumption).
        rewrite Hnil in Hin. destruct Hin.
      + apply Qnot_lt_le. intros C. apply Qlt_bool_iff in C. congruence. }
  destruct df as [| r0 df0]; [congruence |].
  set (df := r0 :: df0) in *.
  eexists. split; [reflexivity |].
  cbn [overall_word declined analysis_cards change_label].
  split; intros Hw Hnil; rewrite (Hkey Hnil) in Hw; discriminate.
Qed.

Lemma decline_needs_a_declined_department_example :
  let df := [mkRow "A" 50 40 (-10); mkRow "B" 80 85 5] in
  exists s,
    generate_summary (Some df) = Text s
    /\ overall_word s = "declined"
    /\ declined s <> [].
Proof.
  intros df.
  destruct (decline_needs_a_declined_department df) as (s & Hs & H & _).
  - discriminate.
  - repeat constructor.
  - exists s. vm_compute in Hs. injection Hs as <-.
    split; [reflexivity |]. split; [reflexivity |].
    apply H. reflexivity.
Defined.

Lemma sort_by_head_first {A} (precedes : A -> A -> bool) (l : list A)
    (h : A) (rest : list A) :
  (forall x y, precedes x y = false -> precedes y x = true) ->
  (forall x y z, precedes x y = true -> precedes y z = true ->
                 precedes x z = true) ->
  sort_by precedes l = h :: rest ->
  In h l /\ forall x, In x l -> x = h \/ precedes h x = true.
Proof.
  intros Htot Htrans E.
  pose proof (sort_by_sorted A precedes Htot Htrans l) as Hs.
  pose proof (sort_by_perm precedes l) as Hp.
  rewrite E in Hs, Hp. inversion Hs as [| ? ? _ Hh]; subst.
  split; [apply (Permutation_in _ Hp); left; reflexivity |].
  intros x Hx. apply (Permutation_in _ (Permutation_sym Hp)) in Hx.
  destruct Hx as [<- | Hx]; [left; reflexivity | right].
  rewrite Forall_forall in Hh. exact (Hh x Hx).
Qed.

(** X27: the summary names at most three key improvements and at most
    three areas of concern, and all of them when there are fewer; the
    first key improvement has the largest Variance of the whole frame, and
    the first area of concern the smallest. *)
Theorem top_rows_lead (df : list VarianceRow) :
  df <> [] ->
  exists s,
    generate_summary (Some df) = Text s
    /\ List.length (top_improved s) = Nat.min 3 (List.length (improved s))
    /\ List.length (top_declined s) = Nat.min 3 (List.length (declined s))
    /\ (forall h rest,
          top_improved s = h :: rest ->
          0 < Variance h /\ forall r, In r df -> Variance r <= Variance h)
    /\ (forall h rest,
          top_declined s = h :: rest ->
          Variance h < 0 /\ forall r, In r df -> Variance h <= Variance r).
Proof.
  intros Hne. destruct df as [| r0 df0]; [congruence |].
  set (df := r0 :: df0) in *. eexists. split; [reflexivity |].
  cbn [top_improved top_declined improved declined].
  assert (Htot : forall a b : Q, Qle_bool a b = false -> Qle_bool b a = true).
  { intros a b H. apply Qle_bool_iff. apply Qlt_le_weak, Qnot_le_lt.
    intros C. apply Qle_bool_iff in C. congruence. }
  assert (Htr : forall a b c : Q,
             Qle_bool a b = true -> Qle_bool b c = true -> Qle_bool a c = true).
  { intros a b c H1 H2. apply Qle_bool_iff. apply Qle_bool_iff in H1, H2.
    exact (Qle_trans _ _ _ H1 H2). }
  unfold nlargest, nsmallest.
  split; [rewrite length_firstn, (Permutation_length (sort_by_perm _ _));
          reflexivity |].
  split; [rewrite length_firstn, (Permutation_length (sort_by_perm _ _));
          reflexivity |].
  split; intros h rest Htop.
  - destruct (sort_by _ (filter (fun r => Qlt_bool 0 (Variance r)) df))
      as [| h' rest'] eqn:E; [discriminate |].
    cbn in Htop. injection Htop as -> _.
    destruct (sort_by_head_first
                (fun x y : VarianceRow => Qle_bool (Variance y) (Variance x))
                _ _ _
                ltac:(intros x y; apply Htot)
                ltac:(intros x y z H1 H2; exact (Htr _ _ _ H2 H1)) E)
      as [Hin Hmax].
    apply filter_In in Hin. destruct Hin as [_ Hpos].
    apply Qlt_bool_iff in Hpos. split; [exact Hpos |].
    intros r Hr. destruct (Qlt_bool 0 (Variance r)) eqn:Er.
    + destruct (Hmax r) as [-> | H];
        [apply filter_In; split; assumption | apply Qle_refl |].
      apply Qle_bool_iff. exact H.
    + assert (Variance r <= 0).
      { apply Qnot_lt_le. intros C. apply Qlt_bool_iff in C. congruence. }
      lra.
  - destruct (sort_by _ (filter (fun r => Qlt_bool (Variance r) 0) df))
      as [| h' rest'] eqn:E; [discriminate |].
    cbn in Htop. injection Htop as -> _.
    destruct (sort_by_head_first
                (fun x y : VarianceRow => Qle_bool (Variance x) (Variance y))
                _ _ _
                ltac:(intros x y; apply Htot)
                ltac:(intros x y z; apply Htr) E)
      as [Hin Hmin].
    apply filter_In in Hin. destruct Hin as [_ Hneg].
    apply Qlt_bool_iff in Hneg. split; [exact Hneg |].
    intros r Hr. destruct (Qlt_bool (Variance r) 0) eqn:Er.
    + destruct (Hmin r) as [-> | H];
        [apply filter_In; split; assumption | apply Qle_refl |].
      apply Qle_bool_iff. exact H.
    + assert (0 <= Variance r).
      { apply Qnot_lt_le. intros C. apply Qlt_bool_iff in C. congruence. }
      lra.
Qed.

Lemma top_rows_lead_example :
  exists s,
    generate_summary (Some example_analysis) = Text s
    /\ List.length (top_improved s) = 3%nat
    /\ List.length (top_declined s) = 1%nat.
Proof.
  destruct (top_rows_lead example_analysis) as (s & Hs & H1 & H2 & _);
    [discriminate |].
  exists s. split; [exact Hs |].
  vm_compute in Hs. injection Hs as <-. split; reflexivity.
Defined.

End HospitalMore.
